(** * Uniswap V3 liquidity rebalancing action: model and properties

    Shallow embedding of the two [rebalance_liquidity] functions of the
    repository:

    - [Core.rebalance_liquidity], from
      [cdp_agentkit_core/actions/defi/rebalance_liquidity.py];
    - [Chatbot.rebalance_liquidity], from
      [examples/cdp-langchain-chatbot/chatbot.py].

    Both are straight-line scripts over an external wallet object.  The
    wallet is not part of the repository, so a program is a tree of wallet
    calls ([prog]); it is run against an arbitrary environment ([oracle])
    that answers every call either with a Python value or with a raised
    exception, and the run records the sequence of calls and answers
    ([trace]). *)

From Stdlib Require Import Ascii.
From stdpp Require Import base gmap strings list pretty.

Open Scope Z_scope.

(** ** Python values *)

(** Scalars that flow through the action: [None], booleans, integers and
    strings. *)
Inductive atom :=
| ANone
| ABool (b : bool)
| AInt (z : Z)
| AStr (s : string).

(** A Python [dict] with string keys and scalar values, as in the argument
    dictionaries handed to [invoke_contract] and the results of [wait()]. *)
Abbreviation dict := (gmap string atom).

(** Values an external call can return: a scalar, a dictionary, or an opaque
    object identified by a handle.  The only method assumed of an opaque
    object is [wait()]. *)
Inductive pyval :=
| Atom (a : atom)
| Dict (d : dict)
| Obj (h : nat).

(** Exceptions.  [External] stands for whatever the wallet SDK raises. *)
Inductive exn :=
| TypeError
| ValueError
| AttributeError
| External (msg : string).

Global Instance atom_eq_dec : EqDecision atom.
Proof. solve_decision. Defined.

Global Instance exn_eq_dec : EqDecision exn.
Proof. solve_decision. Defined.

(** Python truth value of a scalar ([bool(x)]). *)
Definition truthy (a : atom) : bool :=
  match a with
  | ANone => false
  | ABool b => b
  | AInt z => negb (z =? 0)
  | AStr s => negb (bool_decide (s = ""))
  end.

(** Python truth value of a returned value: a dictionary is true when it is
    not empty, an object is true. *)
Definition truthy_val (v : pyval) : bool :=
  match v with
  | Atom a => truthy a
  | Dict d => negb (bool_decide (d = ∅))
  | Obj _ => true
  end.

(** [str(x)], as used by the replacement fields of an f-string. *)
Definition py_str (a : atom) : string :=
  match a with
  | ANone => "None"
  | ABool true => "True"
  | ABool false => "False"
  | AInt z => pretty z
  | AStr s => s
  end.

(** [x == y] on scalars: booleans compare as the integers 0 and 1, a string
    only equals a string, [None] only equals [None]. *)
Definition py_eq (a b : atom) : bool :=
  match a, b with
  | ANone, ANone => true
  | AStr s, AStr t => bool_decide (s = t)
  | ABool x, ABool y => bool_decide (x = y)
  | ABool x, AInt z | AInt z, ABool x => Z.b2z x =? z
  | AInt x, AInt y => x =? y
  | _, _ => false
  end.

(** *** [s.strip()]

    Whitespace for [str.strip()] is what [str.isspace()] accepts; among the
    ASCII characters these are tab to carriage return (9 to 13), the four
    separators 28 to 31 and the space. *)

Definition is_space (c : Ascii.ascii) : bool :=
  let n := Ascii.N_of_ascii c in
  ((9 <=? n) && (n <=? 13) || (28 <=? n) && (n <=? 32))%N.

Definition digit_val (c : Ascii.ascii) : option Z :=
  Z.of_nat <$> Ascii.is_nat c.

Fixpoint lstrip (s : string) : string :=
  match s with
  | String c s' => if is_space c then lstrip s' else s
  | EmptyString => EmptyString
  end.

Definition strip (s : string) : string :=
  String.rev (lstrip (String.rev (lstrip s))).

(** *** [int(s)] on a string

    [int] skips whitespace around the literal, accepts one optional sign
    and then decimal digits in which single underscores may separate
    digits.  Around an ASCII literal the whitespace it skips is tab to
    carriage return (9 to 13) and the space only: the separators 28 to 31,
    which [strip] removes, make the literal invalid.  A literal of more
    than 4300 digits is refused (the default limit of CPython on the
    conversion between text and integers).  The model covers ASCII text;
    any other byte makes the literal invalid. *)

Definition is_int_space (c : Ascii.ascii) : bool :=
  let n := Ascii.N_of_ascii c in
  ((9 <=? n) && (n <=? 13) || (n =? 32))%N.

Fixpoint int_lstrip (s : string) : string :=
  match s with
  | String c s' => if is_int_space c then int_lstrip s' else s
  | EmptyString => EmptyString
  end.

Definition int_strip (s : string) : string :=
  String.rev (int_lstrip (String.rev (int_lstrip s))).

(** [int_digits s acc after_digit]: reads the digits of [s] onto [acc];
    [after_digit] tells that the previous character was a digit, the only
    place where an underscore or the end of the literal is allowed. *)
Fixpoint int_digits (s : string) (acc : Z) (after_digit : bool) : option Z :=
  match s with
  | EmptyString => if after_digit then Some acc else None
  | String c s' =>
      match digit_val c with
      | Some d => int_digits s' (10 * acc + d) true
      | None =>
          if Ascii.eqb c "_"%char && after_digit
          then int_digits s' acc false
          else None
      end
  end.

(** The number of digits of a literal, underscores left out. *)
Fixpoint digit_count (s : string) : N :=
  match s with
  | String c s' =>
      ((match digit_val c with Some _ => 1 | None => 0 end) + digit_count s')%N
  | EmptyString => 0%N
  end.

Definition max_str_digits : N := 4300.

(** The literal after the sign. *)
Definition int_literal (s : string) : option Z :=
  if (max_str_digits <? digit_count s)%N then None else int_digits s 0 false.

Definition int_of_str (s : string) : option Z :=
  match int_strip s with
  | String "-"%char s' => Z.opp <$> int_literal s'
  | String "+"%char s' => int_literal s'
  | s' => int_literal s'
  end.

(** ** Programs over the wallet *)

(** Calls that leave the function: the wallet's methods and [wait()] on an
    object the wallet returned. *)
Inductive call :=
| InvokeContract (contract_address method : string) (args : dict)
| Wait (h : nat)
| GetLiquidityPosition (pool : string)
| HasTokenApproval (token spender : string).

(** What a call answers. *)
Inductive reply :=
| Returned (v : pyval)
| Raised (e : exn).

(** A program returning an [A]: it returns, raises, prints a line, or
    makes a call and continues with the answer. *)
Inductive prog (A : Type) : Type :=
| Ret (a : A)
| Throw (e : exn)
| Out (s : string) (k : prog A)
| Vis (c : call) (k : reply → prog A).

Arguments Ret {A} a.
Arguments Throw {A} e.
Arguments Out {A} s k.
Arguments Vis {A} c k.

Fixpoint prog_bind {A B} (f : A → prog B) (p : prog A) : prog B :=
  match p with
  | Ret a => f a
  | Throw e => Throw e
  | Out s k => Out s (prog_bind f k)
  | Vis c k => Vis c (λ r, prog_bind f (k r))
  end.

Global Instance prog_ret : MRet prog := @Ret.
Global Instance prog_mbind : MBind prog := @prog_bind.

(** A call written as a plain Python expression: the value comes back, an
    exception goes on to the caller. *)
Definition perform (c : call) : prog pyval :=
  Vis c (λ r, match r with Returned v => Ret v | Raised e => Throw e end).

(** [print(s)]. *)
Definition print (s : string) : prog unit := Out s (Ret tt).

(** [x.wait()]: only objects have the method. *)
Definition wait (x : pyval) : prog pyval :=
  match x with
  | Obj h => perform (Wait h)
  | _ => Throw AttributeError
  end.

(** [x.get(key, dflt)]: only dictionaries have the method. *)
Definition get (x : pyval) (key : string) (dflt : atom) : prog atom :=
  match x with
  | Dict d => Ret (default dflt (d !! key))
  | _ => Throw AttributeError
  end.

(** [int(x)]. *)
Definition py_int (a : atom) : prog Z :=
  match a with
  | ANone => Throw TypeError
  | ABool b => Ret (Z.b2z b)
  | AInt z => Ret z
  | AStr s => match int_of_str s with Some z => Ret z | None => Throw ValueError end
  end.

(** The attributes of the wallet object that the action reads. *)
Record Wallet := { address : atom }.

(** ** Runs *)

Inductive event :=
| EvOut (s : string)
| EvCall (c : call) (r : reply).

Abbreviation trace := (list event).

(** The environment: it answers a call knowing everything that happened
    before it. *)
Abbreviation oracle := (trace → call → reply).

Inductive outcome (A : Type) : Type :=
| Return (a : A)
| Raise (e : exn).

Arguments Return {A} a.
Arguments Raise {A} e.

(** [run o p hist] runs [p] after the events [hist] and gives the events
    up to the end of [p] together with its outcome. *)
Fixpoint run {A} (o : oracle) (p : prog A) (hist : trace) : trace * outcome A :=
  match p with
  | Ret a => (hist, Return a)
  | Throw e => (hist, Raise e)
  | Out s k => run o k (hist ++ [EvOut s])
  | Vis c k => let r := o hist c in run o (k r) (hist ++ [EvCall c r])
  end.

(** The contract invocations of a trace, in the order they were issued:
    contract address, method and argument dictionary of each. *)
Definition invocations (tr : trace) : list (string * string * dict) :=
  omap (λ ev, match ev with
              | EvCall (InvokeContract a m args) _ => Some (a, m, args)
              | _ => None
              end) tr.

Definition methods (tr : trace) : list string :=
  (λ i, i.1.2) <$> invocations tr.

Definition is_invoke (c : call) : bool :=
  match c with InvokeContract _ _ _ => true | _ => false end.

Definition is_wait (c : call) : bool :=
  match c with Wait _ => true | _ => false end.

Definition is_mint (c : call) : bool :=
  match c with InvokeContract _ m _ => bool_decide (m = "mint") | _ => false end.

(** No [mint] invocation among the events. *)
Definition no_mint (tr : trace) : Prop :=
  Forall (λ ev, match ev with EvCall c _ => is_mint c = false | EvOut _ => True end) tr.

(** ** The action of the core package
    ([cdp_agentkit_core/actions/defi/rebalance_liquidity.py]) *)

Module Core.

Definition NM_POSITION_MANAGER : string :=
  "0x03a520b32C04BF3bEEf7BEb72E919cf822Ed34f1".
Definition fee : Z := 3000.
Definition deadline : Z := 9999999999.

Definition invoke_contract (contract_address method : string) (args : dict)
  : prog pyval :=
  perform (InvokeContract contract_address method args).

Section Action.
Variable wallet : Wallet.
Variables tick_a tick_b : Z.
Variables pool token0 token1 amount0Desired amount1Desired : string.

Definition mint_args : dict :=
  list_to_map [
    ("token0", AStr token0);
    ("token1", AStr token1);
    ("fee", AInt fee);
    ("tickLower", AInt tick_a);
    ("tickUpper", AInt tick_b);
    ("amount0Desired", AStr amount0Desired);
    ("amount1Desired", AStr amount1Desired);
    ("amount0Min", AStr "0");
    ("amount1Min", AStr "0");
    ("recipient", address wallet);
    ("deadline", AInt deadline);
    ("pool", AStr pool) ].

Definition decrease_args (tokenId liquidity : atom) : dict :=
  list_to_map [
    ("tokenId", tokenId);
    ("liquidity", liquidity);
    ("amount0Min", AStr "0");
    ("amount1Min", AStr "0");
    ("deadline", AInt deadline);
    ("pool", AStr pool) ].

Definition collect_args (tokenId : atom) : dict :=
  list_to_map [
    ("tokenId", tokenId);
    ("recipient", address wallet);
    ("amount0Max", AStr amount0Desired);
    ("amount1Max", AStr amount1Desired) ].

Definition burn_args (tokenId : atom) : dict :=
  list_to_map [ ("tokenId", tokenId); ("pool", AStr pool) ].

Definition created_message (tokenId : atom) : string :=
  "Liquidity position created with token ID " +:+ py_str tokenId +:+
  " in pool " +:+ pool +:+ " with tick range [" +:+ pretty tick_a +:+
  ", " +:+ pretty tick_b +:+ "].".

Definition rebalanced_message (tokenId new_tokenId : atom) : string :=
  "Liquidity position rebalanced. Old position (token ID " +:+
  py_str tokenId +:+ ") removed. " +:+
  "New liquidity position created with token ID " +:+
  py_str new_tokenId +:+ " in pool " +:+ pool +:+ " " +:+
  "with tick range [" +:+ pretty tick_a +:+ ", " +:+ pretty tick_b +:+ "].".

Definition invalid_message : string :=
  "Existing liquidity position is invalid or has zero liquidity.".

(** [not tokenId or int(liquidity) == 0]: [int] is only evaluated when
    the left operand is false. *)
Definition invalid_position (tokenId liquidity : atom) : prog bool :=
  if negb (truthy tokenId) then mret true
  else n ← py_int liquidity; mret (n =? 0).

Definition rebalance_liquidity
    (existing_position : bool) (existing_tokenId existing_liquidity : atom)
  : prog string :=
  if negb existing_position then
    print "Minting new liquidity position...";;
    invocation ← invoke_contract NM_POSITION_MANAGER "mint" mint_args;
    result ← wait invocation;
    tokenId ← get result "tokenId" (AStr "unknown");
    mret (created_message tokenId)
  else
    let tokenId := existing_tokenId in
    let liquidity := existing_liquidity in
    invalid ← invalid_position tokenId liquidity;
    if (invalid : bool) then mret invalid_message
    else
      print ("Removing liquidity from existing position (token ID " +:+
             py_str tokenId +:+ ")...");;
      invocation ← invoke_contract NM_POSITION_MANAGER "decreaseLiquidity"
                     (decrease_args tokenId liquidity);
      wait invocation;;
      print "Collecting fees from the old position...";;
      invocation ← invoke_contract NM_POSITION_MANAGER "collect"
                     (collect_args tokenId);
      wait invocation;;
      print ("Burning old liquidity position (token ID " +:+
             py_str tokenId +:+ ")...");;
      invocation ← invoke_contract NM_POSITION_MANAGER "burn"
                     (burn_args tokenId);
      wait invocation;;
      print "Minting new liquidity position with updated tick range...";;
      invocation ← invoke_contract NM_POSITION_MANAGER "mint" mint_args;
      result ← wait invocation;
      new_tokenId ← get result "tokenId" (AStr "unknown");
      mret (rebalanced_message tokenId new_tokenId).

End Action.

End Core.

(** ** The action of the example chatbot
    ([examples/cdp-langchain-chatbot/chatbot.py]) *)

Module Chatbot.

Definition NM_POSITION_MANAGER : string :=
  "0x27F971cb582BF9E50F397e4d29a5C7A34f11faA2".
Definition fee : Z := 3000.
Definition deadline : Z := 9999999999.

Definition invoke_contract (contract_address method : string) (args : dict)
  : prog pyval :=
  perform (InvokeContract contract_address method args).

Definition get_liquidity_position (pool : string) : prog pyval :=
  perform (GetLiquidityPosition pool).

Definition has_token_approval (token spender : string) : prog pyval :=
  perform (HasTokenApproval token spender).

Section Action.
Variable wallet : Wallet.
Variables tick_a tick_b : Z.
Variables pool token0 token1 amount0Desired amount1Desired : string.

Definition approve_args (value : string) : dict :=
  list_to_map [ ("spender", AStr NM_POSITION_MANAGER); ("value", AStr value) ].

Definition mint_args : dict :=
  list_to_map [
    ("token0", AStr token0);
    ("token1", AStr token1);
    ("fee", AInt fee);
    ("tickLower", AInt tick_a);
    ("tickUpper", AInt tick_b);
    ("amount0Desired", AStr amount0Desired);
    ("amount1Desired", AStr amount1Desired);
    ("amount0Min", AStr "0");
    ("amount1Min", AStr "0");
    ("recipient", address wallet);
    ("deadline", AInt deadline) ].

Definition decrease_args (tokenId liquidity : atom) : dict :=
  list_to_map [
    ("tokenId", tokenId);
    ("liquidity", liquidity);
    ("amount0Min", AStr "0");
    ("amount1Min", AStr "0");
    ("deadline", AInt deadline) ].

Definition collect_args (tokenId : atom) : dict :=
  list_to_map [
    ("tokenId", tokenId);
    ("recipient", address wallet);
    ("amount0Max", AStr amount0Desired);
    ("amount1Max", AStr amount1Desired) ].

Definition burn_args (tokenId : atom) : dict :=
  list_to_map [ ("tokenId", tokenId) ].

Definition created_message (tokenId : atom) : string :=
  "Liquidity position created with token ID " +:+ py_str tokenId +:+
  " in pool " +:+ pool +:+ " with tick range [" +:+ pretty tick_a +:+
  ", " +:+ pretty tick_b +:+ "].".

Definition rebalanced_message (tokenId new_tokenId : atom) : string :=
  "Liquidity position rebalanced. Old position (token ID " +:+
  py_str tokenId +:+ ") removed. " +:+
  "New liquidity position created with token ID " +:+
  py_str new_tokenId +:+ " in pool " +:+ pool +:+ " " +:+
  "with tick range [" +:+ pretty tick_a +:+ ", " +:+ pretty tick_b +:+ "].".

Definition invalid_message : string :=
  "Existing liquidity position is invalid or has zero liquidity.".

(** [if not wallet.has_token_approval(token, NM_POSITION_MANAGER): ...] *)
Definition ensure_approval (n token value : string) : prog unit :=
  approved ← has_token_approval token NM_POSITION_MANAGER;
  if negb (truthy_val approved) then
    print ("Requesting approval for " +:+ n +:+ " (" +:+ token +:+ ")...");;
    approval_tx ← invoke_contract token "approve" (approve_args value);
    wait approval_tx;;
    mret tt
  else mret tt.

Definition rebalance_liquidity : prog string :=
  position ← get_liquidity_position pool;
  if negb (truthy_val position) then
    ensure_approval "token0" token0 amount0Desired;;
    ensure_approval "token1" token1 amount1Desired;;
    print "Minting new liquidity position...";;
    invocation ← invoke_contract NM_POSITION_MANAGER "mint" mint_args;
    result ← wait invocation;
    tokenId ← get result "tokenId" (AStr "unknown");
    mret (created_message tokenId)
  else
    tokenId ← get position "tokenId" ANone;
    liquidity ← get position "liquidity" ANone;
    if negb (truthy tokenId) || py_eq liquidity (AStr "0")
    then mret invalid_message
    else
      print ("Removing liquidity from existing position (token ID " +:+
             py_str tokenId +:+ ")...");;
      invocation ← invoke_contract NM_POSITION_MANAGER "decreaseLiquidity"
                     (decrease_args tokenId liquidity);
      wait invocation;;
      print "Collecting fees from the old position...";;
      invocation ← invoke_contract NM_POSITION_MANAGER "collect"
                     (collect_args tokenId);
      wait invocation;;
      print ("Burning old liquidity position (token ID " +:+
             py_str tokenId +:+ ")...");;
      invocation ← invoke_contract NM_POSITION_MANAGER "burn"
                     (burn_args tokenId);
      wait invocation;;
      print "Minting new liquidity position with updated tick range...";;
      invocation ← invoke_contract NM_POSITION_MANAGER "mint" mint_args;
      result ← wait invocation;
      new_tokenId ← get result "tokenId" (AStr "unknown");
      mret (rebalanced_message tokenId new_tokenId).

End Action.

End Chatbot.

(** ** Properties of programs and traces *)

(** [uncaught p]: no call of [p] is wrapped in a handler; whenever the
    environment answers a call with an exception, [p] raises that very
    exception at once.  (A [try]/[except] would show up as a continuation
    that does something else with [Raised e].) *)
Inductive uncaught {A : Type} : prog A → Prop :=
| uncaught_ret a : uncaught (Ret a)
| uncaught_throw e : uncaught (Throw e)
| uncaught_out s k : uncaught k → uncaught (Out s k)
| uncaught_vis c k :
    (∀ e, k (Raised e) = Throw e) →
    (∀ v, uncaught (k (Returned v))) →
    uncaught (Vis c k).

(** [issues P p]: every call that [p] can make satisfies [P]. *)
Inductive issues {A : Type} (P : call → Prop) : prog A → Prop :=
| issues_ret a : issues P (Ret a)
| issues_throw e : issues P (Throw e)
| issues_out s k : issues P k → issues P (Out s k)
| issues_vis c k : P c → (∀ r, issues P (k r)) → issues P (Vis c k).

(** The calls of a trace all satisfy [P]. *)
Definition calls_in (P : call → Prop) (tr : trace) : Prop :=
  Forall (λ ev, match ev with EvCall c _ => P c | EvOut _ => True end) tr.

(** Blocking discipline of a trace.  The index is the value of the
    invocation that has been issued and not yet confirmed, if any:
    - an invocation is only issued when nothing is awaited;
    - once it returned a value, the next call is [wait()] on that value;
    - a call that raised is the last event. *)
Inductive blocking : option pyval → trace → Prop :=
| blocking_end awaited : blocking awaited []
| blocking_out awaited s tr :
    blocking awaited tr → blocking awaited (EvOut s :: tr)
| blocking_invoke a m args v tr :
    blocking (Some v) tr →
    blocking None (EvCall (InvokeContract a m args) (Returned v) :: tr)
| blocking_invoke_raised a m args e :
    blocking None [EvCall (InvokeContract a m args) (Raised e)]
| blocking_wait h x tr :
    blocking None tr →
    blocking (Some (Obj h)) (EvCall (Wait h) (Returned x) :: tr)
| blocking_wait_raised h e :
    blocking (Some (Obj h)) [EvCall (Wait h) (Raised e)].

(** The position passes the check of the core action:
    [tokenId] is true and [int(liquidity)] is a non-zero integer. *)
Definition valid_position (tokenId liquidity : atom) : Prop :=
  truthy tokenId = true ∧ ∃ n, py_int liquidity = Ret n ∧ n ≠ 0.

(** A [has_token_approval] call that was answered with a false value. *)
Definition lacks_approval (ev : event) : bool :=
  match ev with
  | EvCall (HasTokenApproval _ _) (Returned v) => negb (truthy_val v)
  | _ => false
  end.

Definition missing_approvals (tr : trace) : nat :=
  length (List.filter lacks_approval tr).

(** ** Test doubles *)

Definition is_call (ev : event) : bool :=
  match ev with EvCall _ _ => true | EvOut _ => false end.

(** A wallet that answers the calls with the given replies, one after the
    other (the [side_effect] list of the unit tests). *)
Definition scripted (replies : list reply) : oracle :=
  λ hist _,
    default (Raised (External "StopIteration"))
            (replies !! length (List.filter is_call hist)).

Definition dummy_wallet : Wallet := {| address := AStr "0xDummyWalletAddress" |}.

Definition token_result (tokenId : string) : reply :=
  Returned (Dict {[ "tokenId" := AStr tokenId ]}).

(** The four invocations of the rebalancing test: three confirmations
    without a result, then the mint with its new token. *)
Definition rebalance_script : list reply :=
  [ Returned (Obj 1); Returned (Atom ANone);
    Returned (Obj 2); Returned (Atom ANone);
    Returned (Obj 3); Returned (Atom ANone);
    Returned (Obj 4); token_result "5678" ].

(** A wallet holding no position whose tokens are not approved yet: the
    position, then for each token the missing approval and its approving
    invocation, then the mint. *)
Definition unapproved_script : list reply :=
  [ Returned (Atom ANone);
    Returned (Atom (ABool false)); Returned (Obj 1); Returned (Atom ANone);
    Returned (Atom (ABool false)); Returned (Obj 2); Returned (Atom ANone);
    Returned (Obj 3); token_result "5678" ].

(** A position as [get_liquidity_position] reports it. *)
Definition held_position (liquidity : atom) : dict :=
  list_to_map [ ("tokenId", AStr "1234"); ("liquidity", liquidity) ].

(** The wallet of the chatbot holding a position, and confirming the four
    invocations of the rebalancing. *)
Definition holding_script (liquidity : atom) : list reply :=
  Returned (Dict (held_position liquidity)) :: rebalance_script.

(** The decrease is confirmed, then the collect reverts. *)
Definition reverting_script : list reply :=
  [ Returned (Obj 1); Returned (Atom ANone);
    Raised (External "execution reverted") ].

(** A wallet that cooperates: every invocation gives an object and every
    [wait()] gives a dictionary. *)
Definition cooperative (o : oracle) : Prop :=
  ∀ hist c,
    match c with
    | InvokeContract _ _ _ => ∃ h, o hist c = Returned (Obj h)
    | Wait _ => ∃ result, o hist c = Returned (Dict result)
    | GetLiquidityPosition _ | HasTokenApproval _ _ => True
    end.

(** A wallet that reports the given position and approvals in place,
    accepts every invocation and confirms it with the new token. *)
Definition confirming_wallet (position : pyval) : oracle :=
  λ hist c,
    match c with
    | InvokeContract _ _ _ => Returned (Obj (length hist))
    | Wait _ => token_result "5678"
    | GetLiquidityPosition _ => Returned position
    | HasTokenApproval _ _ => Returned (Atom (ABool true))
    end.

(** ** The console program of the example chatbot
    ([examples/cdp-langchain-chatbot/chatbot.py]) *)

(** [s.lower()], on ASCII text: the letters A to Z become a to z. *)
Definition lower_char (c : Ascii.ascii) : Ascii.ascii :=
  let n := Ascii.N_of_ascii c in
  if ((65 <=? n) && (n <=? 90))%N then Ascii.ascii_of_N (n + 32) else c.

Fixpoint lower (s : string) : string :=
  match s with
  | String c s' => String (lower_char c) (lower s')
  | EmptyString => EmptyString
  end.

(** Text made of ASCII characters only, the text on which [lower], [strip]
    and [int_of_str] are what Python computes. *)
Fixpoint ascii_text (s : string) : bool :=
  match s with
  | String c s' => (Ascii.N_of_ascii c <? 128)%N && ascii_text s'
  | EmptyString => true
  end.

Module Console.

(** What the user does at a prompt: a line of text, or an interrupt
    (Ctrl-C).  Standard input is a list of these; [input()] at its end
    raises [EOFError]. *)
Inductive key :=
| Line (s : string)
| CtrlC.

Inductive cexn :=
| EOFError
| KeyboardInterrupt
| IndexError
| SystemExit (code : Z)
| Sdk_error (e : exn).

(** What a function does to the outside, in order: a printed line, the
    prompt of an [input()], a message streamed to the agent executor, a
    [time.sleep]. *)
Inductive effect :=
| EPrint (s : string)
| EPrompt (s : string)
| EStream (content : string)
| ESleep (seconds : Z).

(** How a function has ended; [Running] stands for a loop that is still
    going after the rounds that were observed. *)
Inductive ended (A : Type) : Type :=
| Done (a : A)
| Failed (e : cexn)
| Running.

Arguments Done {A} a.
Arguments Failed {A} e.
Arguments Running {A}.

(** The newline character of the literals that start with it. *)
Definition nl : string := String (Ascii.ascii_of_N 10) EmptyString.

(** A chunk of a stream: under a key such as "agent" or "tools", the
    contents of the messages [chunk[key]["messages"]]. *)
Abbreviation chunk := (gmap string (list string)).

(** [agent_executor.stream(...)] for a configuration: from the contents
    streamed before and the new content to the chunks it yields and, when
    it raises after them, the exception. *)
Abbreviation executor := (list string → string → list chunk * option cexn).

Definition separator : string := "-------------------".

(** The body of the [for chunk in ...] loops: one chunk. *)
Definition print_chunk (ch : chunk) : list effect * option cexn :=
  match ch !! "agent" with
  | Some (content :: _) => ([EPrint content; EPrint separator], None)
  | Some [] => ([], Some IndexError)
  | None =>
      match ch !! "tools" with
      | Some (content :: _) => ([EPrint content; EPrint separator], None)
      | Some [] => ([], Some IndexError)
      | None => ([EPrint separator], None)
      end
  end.

(** The [for chunk in ...] loop over what the executor yields; [raised] is
    the exception of the executor after its last chunk, if any. *)
Fixpoint print_stream (chunks : list chunk) (raised : option cexn)
  : list effect * option cexn :=
  match chunks with
  | [] => ([], raised)
  | ch :: chunks =>
      match print_chunk ch with
      | (out, None) =>
          let '(out', r) := print_stream chunks raised in (out ++ out', r)
      | (out, Some e) => (out, Some e)
      end
  end.

(** The lines and the prompt at the start of each round of [choose_mode]. *)
Definition menu : list effect :=
  [ EPrint (nl +:+ "Available modes:");
    EPrint "1. chat    - Interactive chat mode";
    EPrint "2. auto    - Autonomous action mode";
    EPrompt (nl +:+ "Choose a mode (enter number or name): ") ].

(** [choose_mode()]: the effects, how it ended, and the input left. *)
Fixpoint choose_mode (stdin : list key) : list effect * (ended string * list key) :=
  match stdin with
  | [] => (menu, (Failed EOFError, []))
  | CtrlC :: stdin => (menu, (Failed KeyboardInterrupt, stdin))
  | Line s :: stdin =>
      let choice := strip (lower s) in
      if bool_decide (choice ∈ ["1"; "chat"]) then (menu, (Done "chat", stdin))
      else if bool_decide (choice ∈ ["2"; "auto"]) then (menu, (Done "auto", stdin))
      else
        let '(out, r) := choose_mode stdin in
        (menu ++ EPrint "Invalid choice. Please try again." :: out, r)
  end.

(** The [while True] loop of [run_chat_mode]; [asked] is what was streamed
    to the executor before. *)
Fixpoint chat_loop (agent_executor : executor) (asked : list string)
    (stdin : list key) : list effect * (ended unit * list key) :=
  let prompt := EPrompt (nl +:+ "Prompt: ") in
  match stdin with
  | [] => ([prompt], (Failed EOFError, []))
  | CtrlC :: stdin =>
      ([prompt; EPrint "Goodbye Agent!"], (Failed (SystemExit 0), stdin))
  | Line user_input :: stdin =>
      if bool_decide (lower user_input = "exit") then ([prompt], (Done tt, stdin))
      else
        let '(chunks, raised) := agent_executor asked user_input in
        match print_stream chunks raised with
        | (out, None) =>
            let '(out', r) :=
              chat_loop agent_executor (asked ++ [user_input]) stdin in
            (prompt :: EStream user_input :: out ++ out', r)
        | (out, Some KeyboardInterrupt) =>
            (prompt :: EStream user_input :: out ++ [EPrint "Goodbye Agent!"],
             (Failed (SystemExit 0), stdin))
        | (out, Some e) =>
            (prompt :: EStream user_input :: out, (Failed e, stdin))
        end
  end.

Definition run_chat_mode (agent_executor : executor) (stdin : list key)
  : list effect * (ended unit * list key) :=
  let '(out, r) := chat_loop agent_executor [] stdin in
  (EPrint "Starting chat mode... Type 'exit' to end." :: out, r).

Definition thought : string :=
  "Be creative and do something interesting on the blockchain. " +:+
  "Choose an action or set of actions and execute it that highlights your abilities.".

(** The [while True] loop of [run_autonomous_mode], observed for a number
    of rounds; [interrupted k] tells that the sleep of round [k] is
    interrupted. *)
Fixpoint autonomous_loop (agent_executor : executor) (interval : Z)
    (interrupted : nat → bool) (asked : list string) (rounds : nat)
  : list effect * ended unit :=
  match rounds with
  | O => ([], Running)
  | S rounds =>
      let '(chunks, raised) := agent_executor asked thought in
      match print_stream chunks raised with
      | (out, None) =>
          if interrupted (length asked) then
            (EStream thought :: out ++ [ESleep interval; EPrint "Goodbye Agent!"],
             Failed (SystemExit 0))
          else
            let '(out', r) :=
              autonomous_loop agent_executor interval interrupted
                (asked ++ [thought]) rounds in
            (EStream thought :: out ++ ESleep interval :: out', r)
      | (out, Some KeyboardInterrupt) =>
          (EStream thought :: out ++ [EPrint "Goodbye Agent!"],
           Failed (SystemExit 0))
      | (out, Some e) => (EStream thought :: out, Failed e)
      end
  end.

Definition run_autonomous_mode (agent_executor : executor) (interval : Z)
    (interrupted : nat → bool) (rounds : nat) : list effect * ended unit :=
  let '(out, r) := autonomous_loop agent_executor interval interrupted [] rounds in
  (EPrint "Starting autonomous mode..." :: out, r).

(** *** Setting the agent up *)

Definition REBALANCE_LIQUIDITY_PROMPT : string :=
  "
This tool creates or rebalances a Uniswap V3 liquidity position on Base sepolia.
If your agent’s wallet has never created a liquidity position in the specified pool, the tool will:
  1. Check that the required ERC-20 token approvals for token0 and token1 are in place (triggering approval transactions if needed).
  2. Call the NonfungiblePositionManager contract’s mint method to create a new liquidity position with the given tick range.
If a liquidity position already exists, the tool will remove liquidity (and burn the old position) before creating a new one with the updated tick range.
".

Definition state_modifier : string :=
  "You are a helpful agent that can interact onchain using the " +:+
  "Coinbase Developer Platform AgentKit. You are empowered to " +:+
  "interact onchain using your tools. If you ever need funds, you " +:+
  "can request them from the faucet if you are on network ID " +:+
  "'base-sepolia'. If not, you can provide your wallet details and " +:+
  "request funds from the user. Before executing your first action, " +:+
  "get the wallet details to see what network you're on. If there is " +:+
  "a 5XX (internal) HTTP error code, ask the user to try again " +:+
  "later. If someone asks you to do something you can't do with your " +:+
  "currently available tools, you must say so, and encourage them to " +:+
  "implement it themselves using the CDP SDK + Agentkit, recommend " +:+
  "they go to docs.cdp.coinbase.com for more information. Be concise " +:+
  "and helpful with your responses. Refrain from restating your " +:+
  "tools' descriptions unless it is explicitly requested.".

Definition thread_id : string := "CDP Agentkit Chatbot Example!".

(** The libraries that [initialize_agent] builds on.  A constructor or
    method that can fail gives the exception on the left.
    - [ChatOpenAI]: [ChatOpenAI(model=...)];
    - [CdpAgentkitWrapper]: the wrapper built from [values], that is
      without argument or with the persisted wallet as [cdp_wallet_data];
    - [get_tools]: [CdpToolkit.from_cdp_agentkit_wrapper(agentkit).get_tools()];
    - [CdpTool]: the tool of a name and a description over a wrapper, with
      the [args_schema] and the [func] of this file;
    - [create_react_agent]: the agent of a model, tools and a state
      modifier, with a fresh [MemorySaver];
    - [stream]: [agent_executor.stream(..., config)] for the thread of
      [config]. *)
Record Sdk := {
  Llm : Type;
  Agentkit : Type;
  Tool : Type;
  Agent : Type;
  ChatOpenAI : string → exn + Llm;
  CdpAgentkitWrapper : option string → exn + Agentkit;
  export_wallet : Agentkit → exn + string;
  get_tools : Agentkit → exn + list Tool;
  CdpTool : string → string → Agentkit → Tool;
  create_react_agent : Llm → list Tool → string → exn + Agent;
  stream : Agent → string → executor
}.

(** [initialize_agent()]: [file] is the content of [wallet_data.txt], or
    [None] when the file does not exist; the result comes with the file
    afterwards. *)
Definition initialize_agent (sdk : Sdk) (file : option string)
  : ended (Agent sdk * string) * option string :=
  match ChatOpenAI sdk "gpt-4o-mini" with
  | inl e => (Failed (Sdk_error e), file)
  | inr llm =>
      let wallet_data := file in
      let values := wallet_data in
      match CdpAgentkitWrapper sdk values with
      | inl e => (Failed (Sdk_error e), file)
      | inr agentkit =>
          match export_wallet sdk agentkit with
          | inl e => (Failed (Sdk_error e), file)
          | inr wallet_data =>
              let file := Some wallet_data in
              match get_tools sdk agentkit with
              | inl e => (Failed (Sdk_error e), file)
              | inr tools =>
                  let rebalanceLiquidityTool :=
                    CdpTool sdk "rebalance_liquidity"
                      REBALANCE_LIQUIDITY_PROMPT agentkit in
                  let tools := tools ++ [rebalanceLiquidityTool] in
                  match create_react_agent sdk llm tools state_modifier with
                  | inl e => (Failed (Sdk_error e), file)
                  | inr agent => (Done (agent, thread_id), file)
                  end
              end
          end
      end
  end.

(** [main()], with the default interval of [run_autonomous_mode]. *)
Definition main (sdk : Sdk) (file : option string) (stdin : list key)
    (interrupted : nat → bool) (rounds : nat)
  : list effect * (ended unit * list key) * option string :=
  match initialize_agent sdk file with
  | (Done (agent_executor, config), file) =>
      match choose_mode stdin with
      | (out, (Done mode, stdin)) =>
          if bool_decide (mode = "chat") then
            let '(out', r) :=
              run_chat_mode (stream sdk agent_executor config) stdin in
            (out ++ out', r, file)
          else if bool_decide (mode = "auto") then
            let '(out', r) :=
              run_autonomous_mode (stream sdk agent_executor config) 10
                interrupted rounds in
            (out ++ out', (r, stdin), file)
          else (out, (Done tt, stdin), file)
      | (out, (Failed e, stdin)) => (out, (Failed e, stdin), file)
      | (out, (Running, stdin)) => (out, (Running, stdin), file)
      end
  | (Failed e, file) => ([], (Failed e, stdin), file)
  | (Running, file) => ([], (Running, stdin), file)
  end.

(** The contents streamed to the executor, in order. *)
Definition streamed (out : list effect) : list string :=
  omap (λ ef, match ef with EStream content => Some content | _ => None end) out.

(** The lines printed, in order. *)
Definition printed (out : list effect) : list string :=
  omap (λ ef, match ef with EPrint s => Some s | _ => None end) out.

(** A line that [choose_mode] accepts, and the mode it stands for. *)
Definition mode_of (s : string) : option string :=
  let choice := strip (lower s) in
  if bool_decide (choice ∈ ["1"; "chat"]) then Some "chat"
  else if bool_decide (choice ∈ ["2"; "auto"]) then Some "auto"
  else None.

(** The sleeps, in order. *)
Definition slept (out : list effect) : list Z :=
  omap (λ ef, match ef with ESleep seconds => Some seconds | _ => None end) out.

(** An executor that yields what can be printed and does not raise. *)
Definition well_behaved (agent_executor : executor) : Prop :=
  ∀ asked content,
    (print_stream (agent_executor asked content).1
                  (agent_executor asked content).2).2 = None.

(** *** Test doubles *)

(** An executor that answers every content with one agent message, the
    content itself. *)
Definition echo_executor : executor :=
  λ _ content, ([ {[ "agent" := [content] ]} ], None).

(** Libraries whose wrapper is the wallet data itself, a fresh wallet
    when none is given, and whose agent echoes. *)
Definition echo_sdk : Sdk := {|
  Llm := unit;
  Agentkit := string;
  Tool := string;
  Agent := unit;
  ChatOpenAI := λ _, inr tt;
  CdpAgentkitWrapper := λ values, inr (default "fresh wallet" values);
  export_wallet := λ agentkit, inr agentkit;
  get_tools := λ _, inr ["get_wallet_details"; "transfer"];
  CdpTool := λ name _ _, name;
  create_react_agent := λ _ _ _, inr tt;
  stream := λ _ _, echo_executor
|}.

End Console.

(** * Reasoning principles *)

(** ** Exceptions that nothing catches *)

Section Uncaught.
Context {A B : Type}.

Lemma uncaught_bind (p : prog A) (f : A → prog B) :
  uncaught p → (∀ a, uncaught (f a)) → uncaught (p ≫= f).
Proof.
  intros Hp Hf. induction Hp as [a|e|s k _ IH|c k Hraise _ IH]; cbn.
  - apply Hf.
  - constructor.
  - constructor. exact IH.
  - constructor; [|exact IH].
    intros e. unfold mbind, prog_mbind in *. cbn. by rewrite Hraise.
Qed.

End Uncaught.

Lemma uncaught_perform c : uncaught (perform c).
Proof. constructor; [reflexivity | constructor]. Qed.

Lemma uncaught_wait v : uncaught (wait v).
Proof. destruct v; cbn; try constructor; [reflexivity | constructor]. Qed.

Lemma uncaught_get v k d : uncaught (get v k d).
Proof. destruct v; constructor. Qed.

Lemma uncaught_py_int a : uncaught (py_int a).
Proof. destruct a as [| | |s]; cbn; try constructor. destruct (int_of_str s); constructor. Qed.

Lemma uncaught_print s : uncaught (print s).
Proof. repeat constructor. Qed.

(** In a run of a program without handlers, an event that records a raised
    exception is the last event, and the run ends with that exception. *)
Lemma uncaught_run {A} (p : prog A) (o : oracle) :
  uncaught p →
  ∀ hist tr out, run o p hist = (tr, out) →
  ∃ new, tr = hist ++ new ∧
    ∀ pre c e post, new = pre ++ EvCall c (Raised e) :: post →
      post = [] ∧ out = Raise e.
Proof.
  induction 1 as [a|e|s k _ IH|c k Hraise _ IH]; intros hist tr out Hrun;
    cbn in Hrun.
  - injection Hrun as <- <-. exists []. split; [by rewrite app_nil_r|].
    intros [|??] ??? [=].
  - injection Hrun as <- <-. exists []. split; [by rewrite app_nil_r|].
    intros [|??] ??? [=].
  - destruct (IH _ _ _ Hrun) as (new & -> & Hnew).
    exists (EvOut s :: new). split; [by rewrite <- app_assoc|].
    intros [|ev pre] c e post [=]; subst. eauto.
  - destruct (o hist c) as [v|e0] eqn:Ho.
    + destruct (IH v _ _ _ Hrun) as (new & -> & Hnew).
      exists (EvCall c (Returned v) :: new). split; [by rewrite <- app_assoc|].
      intros [|ev pre] c' e post [=]; subst. eauto.
    + rewrite Hraise in Hrun. injection Hrun as <- <-.
      exists [EvCall c (Raised e0)]. split; [done|].
      intros [|ev pre] c' e post [=]; subst; [done|].
      by destruct pre.
Qed.

Ltac uncaught_tac :=
  repeat first
    [ apply uncaught_perform | apply uncaught_wait | apply uncaught_get
    | apply uncaught_py_int | apply uncaught_print | apply uncaught_ret
    | apply uncaught_bind; [|intros ?]
    | match goal with |- uncaught (if ?b then _ else _) => destruct b end ].

Lemma core_uncaught w ta tb pool t0 t1 a0 a1 ex tok liq :
  uncaught (Core.rebalance_liquidity w ta tb pool t0 t1 a0 a1 ex tok liq).
Proof.
  unfold Core.rebalance_liquidity, Core.invalid_position, Core.invoke_contract.
  uncaught_tac.
Qed.

Lemma chatbot_uncaught w ta tb pool t0 t1 a0 a1 :
  uncaught (Chatbot.rebalance_liquidity w ta tb pool t0 t1 a0 a1).
Proof.
  unfold Chatbot.rebalance_liquidity, Chatbot.ensure_approval,
    Chatbot.invoke_contract, Chatbot.get_liquidity_position,
    Chatbot.has_token_approval.
  uncaught_tac.
Qed.

(** ** A property of every call a program can make *)

Section Issues.
Context {A B : Type} (P : call → Prop).

Lemma issues_bind (p : prog A) (f : A → prog B) :
  issues P p → (∀ a, issues P (f a)) → issues P (p ≫= f).
Proof.
  intros Hp Hf. induction Hp as [a|e|s k _ IH|c k Hc _ IH]; cbn;
    [apply Hf | constructor ..]; assumption.
Qed.

Lemma issues_run (p : prog A) (o : oracle) :
  issues P p →
  ∀ hist tr out, run o p hist = (tr, out) → calls_in P hist → calls_in P tr.
Proof.
  unfold calls_in.
  induction 1 as [a|e|s k _ IH|c k Hc _ IH]; intros hist tr out Hrun Hhist;
    cbn in Hrun.
  - by injection Hrun as <- <-.
  - by injection Hrun as <- <-.
  - eapply IH; [exact Hrun|]. apply Forall_app; split; [done|].
    by repeat constructor.
  - eapply IH; [exact Hrun|]. apply Forall_app; split; [done|].
    by repeat constructor.
Qed.

End Issues.

Lemma issues_perform P c : P c → issues P (perform c).
Proof. intros Hc. constructor; [done|]. intros []; constructor. Qed.

Lemma issues_wait P v : (∀ h, P (Wait h)) → issues P (wait v).
Proof.
  intros HP. destruct v; cbn; try constructor; [done|]. intros []; constructor.
Qed.

Lemma issues_get P v k d : issues P (get v k d).
Proof. destruct v; constructor. Qed.

Lemma issues_py_int P a : issues P (py_int a).
Proof. destruct a as [| | |s]; cbn; try constructor. destruct (int_of_str s); constructor. Qed.

Lemma issues_print P s : issues P (print s).
Proof. repeat constructor. Qed.

Ltac issues_tac :=
  repeat first
    [ apply issues_wait; [intros ?] | apply issues_get
    | apply issues_py_int | apply issues_print | apply issues_ret
    | apply issues_perform
    | apply issues_bind; [|intros ?]
    | match goal with |- issues _ (if ?b then _ else _) => destruct b end ].

(** Both actions, with their helpers unfolded down to the calls. *)
Ltac unfold_actions :=
  unfold Core.rebalance_liquidity, Core.invalid_position, Core.invoke_contract,
    Chatbot.rebalance_liquidity, Chatbot.ensure_approval,
    Chatbot.invoke_contract, Chatbot.get_liquidity_position,
    Chatbot.has_token_approval.

(** From a property of all calls of a program to its invocations in a run. *)
Lemma issued_invocation {A} (P : call → Prop) (p : prog A) (o : oracle)
    tr out a m args r :
  issues P p → run o p [] = (tr, out) →
  EvCall (InvokeContract a m args) r ∈ tr → P (InvokeContract a m args).
Proof.
  intros Hp Hrun Hin.
  assert (Hall : calls_in P tr) by (eapply issues_run; [done..|constructor]).
  unfold calls_in in Hall. rewrite Forall_forall in Hall.
  exact (Hall _ Hin).
Qed.

(** ** The blocking discipline, in terms of the events of the trace *)

(** Between two invocations of a disciplined trace, the first invocation
    returned an object and [wait()] on that object has returned. *)
Lemma blocking_sound awaited tr :
  blocking awaited tr →
  (∀ pre c1 r1 mid c2 r2 post,
     tr = pre ++ EvCall c1 r1 :: mid ++ EvCall c2 r2 :: post →
     is_invoke c1 = true → is_invoke c2 = true →
     ∃ h x, r1 = Returned (Obj h) ∧ EvCall (Wait h) (Returned x) ∈ mid) ∧
  (∀ v mid c2 r2 post,
     awaited = Some v →
     tr = mid ++ EvCall c2 r2 :: post →
     is_invoke c2 = true →
     ∃ h x, v = Obj h ∧ EvCall (Wait h) (Returned x) ∈ mid).
Proof.
  induction 1 as [aw|aw s tr _ [IH1 IH2]|a m args v tr _ [IH1 IH2]|a m args e
                  |h x tr _ [IH1 IH2]|h e]; split.
  - intros [|??] ?????? [=].
  - intros ? [|??] ???? [=].
  - intros [|ev pre] c1 r1 mid c2 r2 post [=]; subst. eauto.
  - intros v [|ev mid] c2 r2 post -> [=]; subst.
    intros Hc2.
    destruct (IH2 v mid c2 r2 post eq_refl eq_refl Hc2) as (h & x & -> & Hin).
    exists h, x. split; [done|]. by apply list_elem_of_further.
  - intros [|ev pre] c1 r1 mid c2 r2 post [=]; subst; [|by eauto].
    intros _ Hc2.
    destruct (IH2 v mid c2 r2 post eq_refl eq_refl Hc2) as (h & x & -> & Hin).
    by exists h, x.
  - intros ????? [=].
  - intros [|ev [|??]] c1 r1 [|??] c2 r2 post [=].
  - intros ????? [=].
  - intros [|ev pre] c1 r1 mid c2 r2 post [=]; subst; [done|by eauto].
  - intros v [|ev mid] c2 r2 post [= <-] [=]; subst; [done|].
    intros _. exists h, x. split; [done|]. apply list_elem_of_here.
  - intros [|ev [|??]] c1 r1 [|??] c2 r2 post [=].
  - intros v [|ev [|??]] c2 r2 post [= <-] [=]; subst. done.
Qed.

(** ** Running the actions symbolically *)

Ltac exec_in H :=
  cbn [run prog_bind mbind mret prog_mbind prog_ret perform print wait get
       Core.invoke_contract Chatbot.invoke_contract
       Chatbot.get_liquidity_position Chatbot.has_token_approval
       Chatbot.ensure_approval app negb orb] in H.

(** One step: case analysis on the answer of the environment to the next
    call, or on the kind of value a method is called on. *)
Ltac run_step o H :=
  match type of H with
  | context [match o ?h ?c with _ => _ end] =>
      destruct (o h c) as [?v|?e] eqn:?
  | context [truthy_val ?v] => destruct (truthy_val v) eqn:?
  | context [wait ?v] => is_var v; destruct v as [?a|?d|?h]
  | context [get ?v _ _] => is_var v; destruct v as [?a|?d|?h]
  end; exec_in H.

Ltac run_cases o H := exec_in H; repeat run_step o H.

Lemma invalid_position_valid tok liq :
  valid_position tok liq → Core.invalid_position tok liq = Ret false.
Proof.
  intros [Htok (n & Hliq & Hn)]. unfold Core.invalid_position.
  rewrite Htok, Hliq. cbn. f_equal. by apply Z.eqb_neq.
Qed.

Lemma dict_truthy (d : dict) k :
  truthy (default ANone (d !! k)) = true → truthy_val (Dict d) = true.
Proof.
  intros H. cbn. destruct (decide (d = ∅)) as [->|Hne].
  - by rewrite lookup_empty in H.
  - by rewrite bool_decide_eq_false_2.
Qed.

Lemma py_eq_str a s : a ≠ AStr s → py_eq a (AStr s) = false.
Proof.
  destruct a as [| | |t]; intros Hne; cbn; try reflexivity.
  apply bool_decide_eq_false_2. congruence.
Qed.

(** * The runs of the two actions *)

(** ** Runs that return *)


Lemma core_rebalance_returns (o : oracle) w ta tb pool t0 t1 a0 a1 tok liq tr s :
  valid_position tok liq →
  run o (Core.rebalance_liquidity w ta tb pool t0 t1 a0 a1 true tok liq) []
    = (tr, Return s) →
  ∃ h1 x1 h2 x2 h3 x3 h4 d,
    tr = [ EvOut ("Removing liquidity from existing position (token ID " +:+
                  py_str tok +:+ ")...");
           EvCall (InvokeContract Core.NM_POSITION_MANAGER "decreaseLiquidity"
                     (Core.decrease_args pool tok liq))
                  (Returned (Obj h1));
           EvCall (Wait h1) (Returned x1);
           EvOut "Collecting fees from the old position...";
           EvCall (InvokeContract Core.NM_POSITION_MANAGER "collect"
                     (Core.collect_args w a0 a1 tok))
                  (Returned (Obj h2));
           EvCall (Wait h2) (Returned x2);
           EvOut ("Burning old liquidity position (token ID " +:+
                  py_str tok +:+ ")...");
           EvCall (InvokeContract Core.NM_POSITION_MANAGER "burn"
                     (Core.burn_args pool tok))
                  (Returned (Obj h3));
           EvCall (Wait h3) (Returned x3);
           EvOut "Minting new liquidity position with updated tick range...";
           EvCall (InvokeContract Core.NM_POSITION_MANAGER "mint"
                     (Core.mint_args w ta tb pool t0 t1 a0 a1))
                  (Returned (Obj h4));
           EvCall (Wait h4) (Returned (Dict d)) ] ∧
    s = Core.rebalanced_message ta tb pool tok
          (default (AStr "unknown") (d !! "tokenId")).
Proof.
  intros Hvalid H. unfold Core.rebalance_liquidity in H.
  rewrite (invalid_position_valid _ _ Hvalid) in H.
  run_cases o H; try discriminate H.
  injection H as <- <-. eauto 10.
Qed.

Lemma chatbot_create_returns (o : oracle) w ta tb pool t0 t1 a0 a1 position tr s :
  o [] (GetLiquidityPosition pool) = Returned position →
  truthy_val position = false →
  run o (Chatbot.rebalance_liquidity w ta tb pool t0 t1 a0 a1) [] = (tr, Return s) →
  methods tr = replicate (missing_approvals tr) "approve" ++ ["mint"] ∧
  (missing_approvals tr ≤ 2)%nat ∧
  ∃ pre h d,
    tr = pre ++
         [ EvCall (InvokeContract Chatbot.NM_POSITION_MANAGER "mint"
                     (Chatbot.mint_args w ta tb t0 t1 a0 a1))
                  (Returned (Obj h));
           EvCall (Wait h) (Returned (Dict d)) ] ∧
    s = Chatbot.created_message ta tb pool
          (default (AStr "unknown") (d !! "tokenId")).
Proof.
  intros Hpos Hfalse H. unfold Chatbot.rebalance_liquidity in H.
  exec_in H. rewrite Hpos in H. exec_in H. rewrite Hfalse in H.
  run_cases o H; try discriminate H; injection H as <- <-;
    unfold missing_approvals; cbn [List.filter lacks_approval length];
    repeat match goal with E : truthy_val _ = _ |- _ => rewrite E; clear E end;
    cbn [negb length];
    (split; [reflexivity | split; [lia|]]);
    eexists _, _, _; (split; [|reflexivity]);
    match goal with
    | |- ?l = ?pre ++ _ => first
        [ unify pre (take 10 l); reflexivity
        | unify pre (take 7 l); reflexivity
        | unify pre (take 4 l); reflexivity ]
    end.
Qed.

Lemma chatbot_rebalance_returns (o : oracle) w ta tb pool t0 t1 a0 a1 d tr s :
  let tok := default ANone (d !! "tokenId") in
  let liq := default ANone (d !! "liquidity") in
  o [] (GetLiquidityPosition pool) = Returned (Dict d) →
  truthy tok = true →
  py_eq liq (AStr "0") = false →
  run o (Chatbot.rebalance_liquidity w ta tb pool t0 t1 a0 a1) [] = (tr, Return s) →
  ∃ h1 x1 h2 x2 h3 x3 h4 r,
    tr = [ EvCall (GetLiquidityPosition pool) (Returned (Dict d));
           EvOut ("Removing liquidity from existing position (token ID " +:+
                  py_str tok +:+ ")...");
           EvCall (InvokeContract Chatbot.NM_POSITION_MANAGER "decreaseLiquidity"
                     (Chatbot.decrease_args tok liq))
                  (Returned (Obj h1));
           EvCall (Wait h1) (Returned x1);
           EvOut "Collecting fees from the old position...";
           EvCall (InvokeContract Chatbot.NM_POSITION_MANAGER "collect"
                     (Chatbot.collect_args w a0 a1 tok))
                  (Returned (Obj h2));
           EvCall (Wait h2) (Returned x2);
           EvOut ("Burning old liquidity position (token ID " +:+
                  py_str tok +:+ ")...");
           EvCall (InvokeContract Chatbot.NM_POSITION_MANAGER "burn"
                     (Chatbot.burn_args tok))
                  (Returned (Obj h3));
           EvCall (Wait h3) (Returned x3);
           EvOut "Minting new liquidity position with updated tick range...";
           EvCall (InvokeContract Chatbot.NM_POSITION_MANAGER "mint"
                     (Chatbot.mint_args w ta tb t0 t1 a0 a1))
                  (Returned (Obj h4));
           EvCall (Wait h4) (Returned (Dict r)) ] ∧
    s = Chatbot.rebalanced_message ta tb pool tok
          (default (AStr "unknown") (r !! "tokenId")).
Proof.
  intros tok liq Hpos Htok Hliq H. unfold Chatbot.rebalance_liquidity in H.
  exec_in H. rewrite Hpos in H. exec_in H.
  rewrite (dict_truthy d "tokenId" Htok) in H. exec_in H.
  fold tok liq in H. rewrite Htok, Hliq in H. cbn [negb orb] in H.
  run_cases o H; try discriminate H.
  injection H as <- <-. eauto 10.
Qed.

(** ** Runs against a wallet that cooperates *)

(** A call that the wallet answered otherwise than a cooperating wallet
    does. *)
Ltac uncooperative Hcoop :=
  match goal with
  | E : ?o ?h ?c = _ |- _ =>
      let Hc := fresh in
      pose proof (Hcoop h c) as Hc; cbv beta iota in Hc; rewrite E in Hc;
      destruct Hc as [? Hc]; discriminate Hc
  end.

Lemma core_rebalance_cooperates (o : oracle) w ta tb pool t0 t1 a0 a1 tok liq :
  cooperative o → valid_position tok liq →
  ∃ tr s,
    run o (Core.rebalance_liquidity w ta tb pool t0 t1 a0 a1 true tok liq) []
      = (tr, Return s).
Proof.
  intros Hcoop Hvalid.
  destruct (run o (Core.rebalance_liquidity w ta tb pool t0 t1 a0 a1 true tok liq) [])
    as [tr out] eqn:H.
  unfold Core.rebalance_liquidity in H.
  rewrite (invalid_position_valid _ _ Hvalid) in H.
  run_cases o H; try uncooperative Hcoop.
  injection H as <- <-. eauto.
Qed.

Lemma chatbot_rebalance_cooperates (o : oracle) w ta tb pool t0 t1 a0 a1 d :
  cooperative o →
  o [] (GetLiquidityPosition pool) = Returned (Dict d) →
  truthy (default ANone (d !! "tokenId")) = true →
  py_eq (default ANone (d !! "liquidity")) (AStr "0") = false →
  ∃ tr s,
    run o (Chatbot.rebalance_liquidity w ta tb pool t0 t1 a0 a1) []
      = (tr, Return s).
Proof.
  intros Hcoop Hpos Htok Hliq.
  destruct (run o (Chatbot.rebalance_liquidity w ta tb pool t0 t1 a0 a1) [])
    as [tr out] eqn:H.
  unfold Chatbot.rebalance_liquidity in H.
  exec_in H. rewrite Hpos in H. exec_in H.
  rewrite (dict_truthy d "tokenId" Htok) in H. exec_in H.
  rewrite Htok, Hliq in H. cbn [negb orb] in H.
  run_cases o H; try uncooperative Hcoop.
  injection H as <- <-. eauto.
Qed.

Lemma confirming_wallet_cooperative position :
  cooperative (confirming_wallet position).
Proof. intros hist [a m args|h|pool|token spender]; cbn; eauto. Qed.

(** ** All runs of the core action *)

Lemma core_blocking (o : oracle) w ta tb pool t0 t1 a0 a1 ex tok liq tr out :
  run o (Core.rebalance_liquidity w ta tb pool t0 t1 a0 a1 ex tok liq) []
    = (tr, out) →
  blocking None tr.
Proof.
  intros H. unfold Core.rebalance_liquidity, Core.invalid_position in H.
  destruct ex; cbn [negb] in H.
  - destruct (truthy tok); cbn [negb] in H.
    + destruct liq as [|b|z|l]; cbn [py_int] in H.
      all: try destruct (int_of_str l).
      all: exec_in H.
      all: try match type of H with context [?n =? 0] => destruct (n =? 0) end.
      all: run_cases o H; injection H as <- <-; repeat constructor.
    + run_cases o H; injection H as <- <-; repeat constructor.
  - run_cases o H; injection H as <- <-; repeat constructor.
Qed.

(** The create branch issues its invocation whatever the environment
    answers, and that invocation is the only one. *)
Lemma core_create_methods (o : oracle) w ta tb pool t0 t1 a0 a1 tok liq tr out :
  run o (Core.rebalance_liquidity w ta tb pool t0 t1 a0 a1 false tok liq) []
    = (tr, out) →
  methods tr = ["mint"].
Proof.
  unfold Core.rebalance_liquidity. intros H.
  run_cases o H; by injection H as <- <-.
Qed.

(** The part of the position check that answers with the message: a false
    identifier, whatever the liquidity, or a liquidity that [int] reads as
    zero. *)
Lemma core_invalid_position_message (o : oracle) w ta tb pool t0 t1 a0 a1 tok liq :
  truthy tok = false ∨ py_int liq = Ret 0 →
  run o (Core.rebalance_liquidity w ta tb pool t0 t1 a0 a1 true tok liq) []
    = ([], Return Core.invalid_message).
Proof.
  intros Hinvalid. unfold Core.rebalance_liquidity, Core.invalid_position.
  cbn [negb]. destruct (truthy tok) eqn:Htok; cbn [negb]; [|reflexivity].
  destruct Hinvalid as [? | ->]; [done|reflexivity].
Qed.

(** ** [int] on strings, on examples *)

Example int_of_str_examples :
  int_of_str "0" = Some 0 ∧ int_of_str "00" = Some 0 ∧
  int_of_str " 1000 " = Some 1000 ∧ int_of_str "-5" = Some (-5) ∧
  int_of_str "+1_000" = Some 1000 ∧
  int_of_str "" = None ∧ int_of_str "abc" = None ∧ int_of_str "0.0" = None ∧
  int_of_str "1__0" = None ∧ int_of_str "_1" = None ∧ int_of_str "1_" = None ∧
  int_of_str "- 5" = None.
Proof. repeat split; reflexivity. Qed.

(** The separators that [strip] removes are not whitespace for [int], and
    the limit on the digits counts the leading zeros but neither the sign
    nor the underscores. *)
Example int_of_str_edges :
  int_of_str (String (Ascii.ascii_of_N 28) "0") = None ∧
  int_of_str (String (Ascii.ascii_of_N 11) "0") = Some 0 ∧
  strip (String (Ascii.ascii_of_N 28) "0") = "0" ∧
  int_of_str (Nat.iter 4300 (String "0"%char) "") = Some 0 ∧
  int_of_str (Nat.iter 4301 (String "0"%char) "") = None ∧
  int_of_str (String "-"%char (Nat.iter 4300 (String "0"%char) "")) = Some 0 ∧
  int_of_str (Nat.iter 4300 (λ s, String "0"%char (String "_"%char s)) "0") = None.
Proof. repeat split; vm_compute; reflexivity. Qed.

(** ** The unit tests of the core action *)

(** [test_rebalance_new_position]: every invocation gives the same object,
    whose [wait()] gives the new token. *)
Example test_rebalance_new_position :
  run (λ _ c, match c with
              | Wait _ => token_result "5678"
              | _ => Returned (Obj 0)
              end)
      (Core.rebalance_liquidity dummy_wallet 1000 2000 "0xPoolAddress"
         "0xToken0Address" "0xToken1Address"
         "1000000000000000000" "2000000000000000000" false ANone ANone) []
  = ([ EvOut "Minting new liquidity position...";
       EvCall (InvokeContract "0x03a520b32C04BF3bEEf7BEb72E919cf822Ed34f1" "mint"
                 (list_to_map [
                    ("token0", AStr "0xToken0Address");
                    ("token1", AStr "0xToken1Address");
                    ("fee", AInt 3000);
                    ("tickLower", AInt 1000);
                    ("tickUpper", AInt 2000);
                    ("amount0Desired", AStr "1000000000000000000");
                    ("amount1Desired", AStr "2000000000000000000");
                    ("amount0Min", AStr "0");
                    ("amount1Min", AStr "0");
                    ("recipient", AStr "0xDummyWalletAddress");
                    ("deadline", AInt 9999999999);
                    ("pool", AStr "0xPoolAddress") ]))
              (Returned (Obj 0));
       EvCall (Wait 0) (token_result "5678") ],
     Return "Liquidity position created with token ID 5678 in pool 0xPoolAddress with tick range [1000, 2000].").
Proof. reflexivity. Qed.

(** [test_rebalance_existing_position]. *)
Example test_rebalance_existing_position :
  ∃ tr args rest,
    run (scripted rebalance_script)
      (Core.rebalance_liquidity dummy_wallet 1000 2000 "0xPoolAddress"
         "0xToken0Address" "0xToken1Address"
         "1000000000000000000" "2000000000000000000"
         true (AStr "1234") (AStr "1000")) []
    = (tr, Return "Liquidity position rebalanced. Old position (token ID 1234) removed. New liquidity position created with token ID 5678 in pool 0xPoolAddress with tick range [1000, 2000].") ∧
    length (invocations tr) = 4%nat ∧
    invocations tr
      = ("0x03a520b32C04BF3bEEf7BEb72E919cf822Ed34f1", "decreaseLiquidity", args)
        :: rest ∧
    args !! "tokenId" = Some (AStr "1234") ∧
    args !! "liquidity" = Some (AStr "1000").
Proof.
  eexists _, _, _. split; [reflexivity|]. split; [reflexivity|].
  split; [reflexivity|]. split; reflexivity.
Qed.

(** * The claims *)

(** ** C1: branch and number of invocations *)

(** C1, as stated, fails.  The create branch of the chatbot issues three
    invocations, not one, when neither token is approved; and in the core
    action a rebalancing whose first invocation raises has issued one
    invocation, not four. *)
Lemma invocation_count_counterexample :
  ¬ (∀ (o : oracle) w ta tb pool t0 t1 a0 a1 position tr out,
       o [] (GetLiquidityPosition pool) = Returned position →
       truthy_val position = false →
       run o (Chatbot.rebalance_liquidity w ta tb pool t0 t1 a0 a1) [] = (tr, out) →
       length (invocations tr) = 1%nat) ∧
  ¬ (∀ (o : oracle) w ta tb pool t0 t1 a0 a1 tok liq tr out,
       valid_position tok liq →
       run o (Core.rebalance_liquidity w ta tb pool t0 t1 a0 a1 true tok liq) []
         = (tr, out) →
       length (invocations tr) = 4%nat).
Proof.
  split.
  - intros H.
    specialize (H (scripted unapproved_script) dummy_wallet 1000 2000
                  "0xPoolAddress" "0xToken0Address" "0xToken1Address"
                  "1000000000000000000" "2000000000000000000"
                  (Atom ANone) _ _ eq_refl eq_refl eq_refl).
    discriminate H.
  - intros H.
    assert (Hvalid : valid_position (AStr "1234") (AStr "1000")).
    { split; [reflexivity|]. exists 1000. split; [reflexivity|lia]. }
    specialize (H (scripted [Raised (External "execution reverted")])
                  dummy_wallet 1000 2000
                  "0xPoolAddress" "0xToken0Address" "0xToken1Address"
                  "1000000000000000000" "2000000000000000000"
                  (AStr "1234") (AStr "1000") _ _ Hvalid eq_refl).
    discriminate H.
Qed.

(** C1, amended.  The branch is chosen by the existing-position indication
    alone ([existing_position] in the core action, the truth value of the
    position reported by the wallet in the chatbot).
    - Core action, no existing position: exactly one invocation, the mint,
      whatever the other arguments are and whatever the wallet answers.
    - Core action, existing position that passes the check, run that
      returns: exactly the four invocations decreaseLiquidity, collect,
      burn, mint.
    - Chatbot, no position, run that returns: one approve invocation for
      each token reported as not approved (at most two), then the mint.
    - Chatbot, position that passes the check, run that returns: the same
      four invocations. *)
Theorem invocation_count :
  (∀ (o : oracle) w ta tb pool t0 t1 a0 a1 tok liq tr out,
     run o (Core.rebalance_liquidity w ta tb pool t0 t1 a0 a1 false tok liq) []
       = (tr, out) →
     methods tr = ["mint"]) ∧
  (∀ (o : oracle) w ta tb pool t0 t1 a0 a1 tok liq tr s,
     valid_position tok liq →
     run o (Core.rebalance_liquidity w ta tb pool t0 t1 a0 a1 true tok liq) []
       = (tr, Return s) →
     methods tr = ["decreaseLiquidity"; "collect"; "burn"; "mint"]) ∧
  (∀ (o : oracle) w ta tb pool t0 t1 a0 a1 position tr s,
     o [] (GetLiquidityPosition pool) = Returned position →
     truthy_val position = false →
     run o (Chatbot.rebalance_liquidity w ta tb pool t0 t1 a0 a1) []
       = (tr, Return s) →
     methods tr = replicate (missing_approvals tr) "approve" ++ ["mint"] ∧
     (missing_approvals tr ≤ 2)%nat) ∧
  (∀ (o : oracle) w ta tb pool t0 t1 a0 a1 d tr s,
     o [] (GetLiquidityPosition pool) = Returned (Dict d) →
     truthy (default ANone (d !! "tokenId")) = true →
     py_eq (default ANone (d !! "liquidity")) (AStr "0") = false →
     run o (Chatbot.rebalance_liquidity w ta tb pool t0 t1 a0 a1) []
       = (tr, Return s) →
     methods tr = ["decreaseLiquidity"; "collect"; "burn"; "mint"]).
Proof.
  repeat split.
  - intros. by eapply core_create_methods.
  - intros o w ta tb pool t0 t1 a0 a1 tok liq tr s Hvalid Hrun.
    destruct (core_rebalance_returns _ _ _ _ _ _ _ _ _ _ _ _ _ Hvalid Hrun)
      as (h1 & x1 & h2 & x2 & h3 & x3 & h4 & d & -> & _).
    reflexivity.
  - eapply chatbot_create_returns; eassumption.
  - eapply chatbot_create_returns; eassumption.
  - intros o w ta tb pool t0 t1 a0 a1 d tr s Hpos Htok Hliq Hrun.
    destruct (chatbot_rebalance_returns _ _ _ _ _ _ _ _ _ _ _ _ Hpos Htok Hliq Hrun)
      as (h1 & x1 & h2 & x2 & h3 & x3 & h4 & r & -> & _).
    reflexivity.
Qed.

Lemma invocation_count_witness :
  methods
    (run (scripted rebalance_script)
       (Core.rebalance_liquidity dummy_wallet 1000 2000 "0xPoolAddress"
          "0xToken0Address" "0xToken1Address"
          "1000000000000000000" "2000000000000000000"
          true (AStr "1234") (AStr "1000")) []).1
    = ["decreaseLiquidity"; "collect"; "burn"; "mint"] ∧
  methods
    (run (scripted unapproved_script)
       (Chatbot.rebalance_liquidity dummy_wallet 1000 2000 "0xPoolAddress"
          "0xToken0Address" "0xToken1Address"
          "1000000000000000000" "2000000000000000000") []).1
    = ["approve"; "approve"; "mint"].
Proof.
  split.
  - apply (proj1 (proj2 invocation_count) (scripted rebalance_script)
             dummy_wallet 1000 2000 "0xPoolAddress"
             "0xToken0Address" "0xToken1Address"
             "1000000000000000000" "2000000000000000000"
             (AStr "1234") (AStr "1000") _
             "Liquidity position rebalanced. Old position (token ID 1234) removed. New liquidity position created with token ID 5678 in pool 0xPoolAddress with tick range [1000, 2000].").
    + split; [reflexivity|]. exists 1000. split; [reflexivity|lia].
    + reflexivity.
  - apply (proj1 (proj1 (proj2 (proj2 invocation_count))
             (scripted unapproved_script)
             dummy_wallet 1000 2000 "0xPoolAddress"
             "0xToken0Address" "0xToken1Address"
             "1000000000000000000" "2000000000000000000"
             (Atom ANone) _
             "Liquidity position created with token ID 5678 in pool 0xPoolAddress with tick range [1000, 2000]."
             eq_refl eq_refl eq_refl)).
Defined.

(** ** C2: the early answer for an invalid position *)

(** C2 (the code departs from it): with an identifier present, a liquidity
    that is [None], the declared default of the parameter, or that is not
    the text of an integer makes [int(liquidity)] raise; the call ends with
    [TypeError], respectively [ValueError], and not with the message. *)
Theorem core_unreadable_liquidity_raises (o : oracle) w ta tb pool t0 t1 a0 a1 :
  run o (Core.rebalance_liquidity w ta tb pool t0 t1 a0 a1
           true (AStr "1234") ANone) [] = ([], Raise TypeError) ∧
  run o (Core.rebalance_liquidity w ta tb pool t0 t1 a0 a1
           true (AStr "1234") (AStr "abc")) [] = ([], Raise ValueError).
Proof. split; reflexivity. Qed.

(** ** C3: order of the rebalancing and its report *)

(** C3: a rebalancing of a position that passes the check returns whenever
    the wallet cooperates, and whenever it returns it has issued exactly
    decreaseLiquidity, collect, burn and mint, in this order, all on the
    position manager; the mint carries the new tick range; the run ends
    with that mint and with [wait()] on the object it returned; and the
    returned text names the old token and, as the new one, the ["tokenId"]
    entry of the result of that [wait()] ("unknown" when the result has no
    such entry).  This holds in the core action and in the chatbot. *)
Theorem rebalance_order_and_report :
  (∀ (o : oracle) w ta tb pool t0 t1 a0 a1 tok liq,
     valid_position tok liq →
     (cooperative o →
      ∃ tr s,
        run o (Core.rebalance_liquidity w ta tb pool t0 t1 a0 a1 true tok liq) []
          = (tr, Return s)) ∧
     (∀ tr s,
        run o (Core.rebalance_liquidity w ta tb pool t0 t1 a0 a1 true tok liq) []
          = (tr, Return s) →
        ∃ mint_args pre h result,
          invocations tr
            = [ (Core.NM_POSITION_MANAGER, "decreaseLiquidity",
                  Core.decrease_args pool tok liq);
                (Core.NM_POSITION_MANAGER, "collect",
                  Core.collect_args w a0 a1 tok);
                (Core.NM_POSITION_MANAGER, "burn", Core.burn_args pool tok);
                (Core.NM_POSITION_MANAGER, "mint", mint_args) ] ∧
          mint_args !! "tickLower" = Some (AInt ta) ∧
          mint_args !! "tickUpper" = Some (AInt tb) ∧
          tr = pre ++
               [ EvCall (InvokeContract Core.NM_POSITION_MANAGER "mint" mint_args)
                   (Returned (Obj h));
                 EvCall (Wait h) (Returned (Dict result)) ] ∧
          s = "Liquidity position rebalanced. Old position (token ID " +:+
              py_str tok +:+
              ") removed. New liquidity position created with token ID " +:+
              py_str (default (AStr "unknown") (result !! "tokenId")) +:+
              " in pool " +:+ pool +:+
              " with tick range [" +:+ pretty ta +:+ ", " +:+ pretty tb +:+ "].")) ∧
  (∀ (o : oracle) w ta tb pool t0 t1 a0 a1 d,
     let tok := default ANone (d !! "tokenId") in
     let liq := default ANone (d !! "liquidity") in
     o [] (GetLiquidityPosition pool) = Returned (Dict d) →
     truthy tok = true →
     py_eq liq (AStr "0") = false →
     (cooperative o →
      ∃ tr s,
        run o (Chatbot.rebalance_liquidity w ta tb pool t0 t1 a0 a1) []
          = (tr, Return s)) ∧
     (∀ tr s,
        run o (Chatbot.rebalance_liquidity w ta tb pool t0 t1 a0 a1) []
          = (tr, Return s) →
        ∃ mint_args pre h result,
          invocations tr
            = [ (Chatbot.NM_POSITION_MANAGER, "decreaseLiquidity",
                  Chatbot.decrease_args tok liq);
                (Chatbot.NM_POSITION_MANAGER, "collect",
                  Chatbot.collect_args w a0 a1 tok);
                (Chatbot.NM_POSITION_MANAGER, "burn", Chatbot.burn_args tok);
                (Chatbot.NM_POSITION_MANAGER, "mint", mint_args) ] ∧
          mint_args !! "tickLower" = Some (AInt ta) ∧
          mint_args !! "tickUpper" = Some (AInt tb) ∧
          tr = pre ++
               [ EvCall (InvokeContract Chatbot.NM_POSITION_MANAGER "mint"
                           mint_args)
                   (Returned (Obj h));
                 EvCall (Wait h) (Returned (Dict result)) ] ∧
          s = "Liquidity position rebalanced. Old position (token ID " +:+
              py_str tok +:+
              ") removed. New liquidity position created with token ID " +:+
              py_str (default (AStr "unknown") (result !! "tokenId")) +:+
              " in pool " +:+ pool +:+
              " with tick range [" +:+ pretty ta +:+ ", " +:+ pretty tb +:+ "].")).
Proof.
  split.
  - intros o w ta tb pool t0 t1 a0 a1 tok liq Hvalid. split.
    + intros Hcoop. by apply core_rebalance_cooperates.
    + intros tr s Hrun.
      destruct (core_rebalance_returns _ _ _ _ _ _ _ _ _ _ _ _ _ Hvalid Hrun)
        as (h1 & x1 & h2 & x2 & h3 & x3 & h4 & d & -> & ->).
      eexists _, [_; _; _; _; _; _; _; _; _; _], h4, d. repeat split.
  - intros o w ta tb pool t0 t1 a0 a1 d tok liq Hpos Htok Hliq. split.
    + intros Hcoop.
      exact (chatbot_rebalance_cooperates o w ta tb pool t0 t1 a0 a1 d
               Hcoop Hpos Htok Hliq).
    + intros tr s Hrun.
      destruct (chatbot_rebalance_returns _ _ _ _ _ _ _ _ _ _ _ _
                  Hpos Htok Hliq Hrun)
        as (h1 & x1 & h2 & x2 & h3 & x3 & h4 & r & -> & ->).
      eexists _, [_; _; _; _; _; _; _; _; _; _; _], h4, r. repeat split.
Qed.

Lemma rebalance_order_and_report_witness :
  let core :=
    run (confirming_wallet (Atom ANone))
      (Core.rebalance_liquidity dummy_wallet 1000 2000 "0xPoolAddress"
         "0xToken0Address" "0xToken1Address"
         "1000000000000000000" "2000000000000000000"
         true (AStr "1234") (AStr "1000")) [] in
  let chatbot :=
    run (confirming_wallet (Dict (held_position (AStr "1000"))))
      (Chatbot.rebalance_liquidity dummy_wallet 1000 2000 "0xPoolAddress"
         "0xToken0Address" "0xToken1Address"
         "1000000000000000000" "2000000000000000000") [] in
  let text :=
    "Liquidity position rebalanced. Old position (token ID 1234) removed. New liquidity position created with token ID 5678 in pool 0xPoolAddress with tick range [1000, 2000]." in
  (∃ tr s, core = (tr, Return s)) ∧
  (∃ mint_args pre h result,
     methods core.1 = ["decreaseLiquidity"; "collect"; "burn"; "mint"] ∧
     mint_args !! "tickLower" = Some (AInt 1000) ∧
     mint_args !! "tickUpper" = Some (AInt 2000) ∧
     core.1 = pre ++
       [ EvCall (InvokeContract Core.NM_POSITION_MANAGER "mint" mint_args)
           (Returned (Obj h));
         EvCall (Wait h) (Returned (Dict result)) ] ∧
     text = "Liquidity position rebalanced. Old position (token ID 1234) removed. New liquidity position created with token ID " +:+
            py_str (default (AStr "unknown") (result !! "tokenId")) +:+
            " in pool 0xPoolAddress with tick range [1000, 2000].") ∧
  (∃ tr s, chatbot = (tr, Return s)) ∧
  (∃ mint_args pre h result,
     methods chatbot.1 = ["decreaseLiquidity"; "collect"; "burn"; "mint"] ∧
     mint_args !! "tickLower" = Some (AInt 1000) ∧
     mint_args !! "tickUpper" = Some (AInt 2000) ∧
     chatbot.1 = pre ++
       [ EvCall (InvokeContract Chatbot.NM_POSITION_MANAGER "mint" mint_args)
           (Returned (Obj h));
         EvCall (Wait h) (Returned (Dict result)) ] ∧
     text = "Liquidity position rebalanced. Old position (token ID 1234) removed. New liquidity position created with token ID " +:+
            py_str (default (AStr "unknown") (result !! "tokenId")) +:+
            " in pool 0xPoolAddress with tick range [1000, 2000].").
Proof.
  intros core chatbot text.
  assert (Hvalid : valid_position (AStr "1234") (AStr "1000")).
  { split; [reflexivity|]. exists 1000. split; [reflexivity|lia]. }
  pose proof (proj1 rebalance_order_and_report
                (confirming_wallet (Atom ANone))
                dummy_wallet 1000 2000 "0xPoolAddress"
                "0xToken0Address" "0xToken1Address"
                "1000000000000000000" "2000000000000000000"
                (AStr "1234") (AStr "1000") Hvalid) as [Hcore_returns Hcore].
  pose proof (proj2 rebalance_order_and_report
                (confirming_wallet (Dict (held_position (AStr "1000"))))
                dummy_wallet 1000 2000 "0xPoolAddress"
                "0xToken0Address" "0xToken1Address"
                "1000000000000000000" "2000000000000000000"
                (held_position (AStr "1000")) eq_refl eq_refl eq_refl)
    as [Hchat_returns Hchat].
  split; [exact (Hcore_returns (confirming_wallet_cooperative _))|].
  split.
  { destruct (Hcore core.1 text eq_refl)
      as (mint_args & pre & h & result & Hinv & Hlo & Hhi & Htr & Hs).
    exists mint_args, pre, h, result.
    split; [unfold methods; by rewrite Hinv|]. auto. }
  split; [exact (Hchat_returns (confirming_wallet_cooperative _))|].
  destruct (Hchat chatbot.1 text eq_refl)
    as (mint_args & pre & h & result & Hinv & Hlo & Hhi & Htr & Hs).
  exists mint_args, pre, h, result.
  split; [unfold methods; by rewrite Hinv|]. auto.
Defined.

(** ** C4: failures go to the caller *)

(** C4: in every run of either action, an event in which a call raised is
    the last event of the run, and the run ends by raising that same
    exception: nothing is invoked afterwards, neither a retry nor a
    compensation.  In particular, when the mint had not been issued before
    the failing call and the failing call is not the mint itself, the whole
    run contains no mint. *)
Theorem failure_propagates :
  (∀ (o : oracle) w ta tb pool t0 t1 a0 a1 ex tok liq tr out pre c e post,
     run o (Core.rebalance_liquidity w ta tb pool t0 t1 a0 a1 ex tok liq) []
       = (tr, out) →
     tr = pre ++ EvCall c (Raised e) :: post →
     out = Raise e ∧ post = [] ∧
     (no_mint pre → is_mint c = false → no_mint tr)) ∧
  (∀ (o : oracle) w ta tb pool t0 t1 a0 a1 tr out pre c e post,
     run o (Chatbot.rebalance_liquidity w ta tb pool t0 t1 a0 a1) []
       = (tr, out) →
     tr = pre ++ EvCall c (Raised e) :: post →
     out = Raise e ∧ post = [] ∧
     (no_mint pre → is_mint c = false → no_mint tr)).
Proof.
  assert (Hgen : ∀ (p : prog string) (o : oracle) tr out pre c e post,
            uncaught p → run o p [] = (tr, out) →
            tr = pre ++ EvCall c (Raised e) :: post →
            out = Raise e ∧ post = [] ∧
            (no_mint pre → is_mint c = false → no_mint tr)).
  { intros p o tr out pre c e post Hp Hrun Htr.
    destruct (uncaught_run p o Hp _ _ _ Hrun) as (new & Hnew & Hlast).
    cbn in Hnew. subst new.
    destruct (Hlast _ _ _ _ Htr) as [-> ->]. subst tr.
    repeat split. intros Hpre Hc. unfold no_mint.
    apply Forall_app. split; [exact Hpre|]. by repeat constructor. }
  split.
  - intros o w ta tb pool t0 t1 a0 a1 ex tok liq tr out pre c e post Hrun Htr.
    exact (Hgen _ o tr out pre c e post (core_uncaught _ _ _ _ _ _ _ _ _ _ _)
             Hrun Htr).
  - intros o w ta tb pool t0 t1 a0 a1 tr out pre c e post Hrun Htr.
    exact (Hgen _ o tr out pre c e post (chatbot_uncaught _ _ _ _ _ _ _ _)
             Hrun Htr).
Qed.

Lemma failure_propagates_witness :
  let r := run (scripted reverting_script)
             (Core.rebalance_liquidity dummy_wallet 1000 2000 "0xPoolAddress"
                "0xToken0Address" "0xToken1Address"
                "1000000000000000000" "2000000000000000000"
                true (AStr "1234") (AStr "1000")) [] in
  r.2 = Raise (External "execution reverted") ∧ no_mint r.1.
Proof.
  intros r.
  destruct (proj1 failure_propagates (scripted reverting_script)
              dummy_wallet 1000 2000 "0xPoolAddress"
              "0xToken0Address" "0xToken1Address"
              "1000000000000000000" "2000000000000000000"
              true (AStr "1234") (AStr "1000") r.1 r.2
              (take 4 r.1)
              (InvokeContract Core.NM_POSITION_MANAGER "collect"
                 (Core.collect_args dummy_wallet "1000000000000000000"
                    "2000000000000000000" (AStr "1234")))
              (External "execution reverted") [] eq_refl eq_refl)
    as (Hout & _ & Hmint).
  split; [exact Hout|].
  apply Hmint; [|reflexivity].
  unfold no_mint. cbn. repeat constructor.
Defined.

(** ** C5: fee tier and deadline *)

(** C5: in every run of either action, whatever the arguments and whatever
    the wallet answers, a mint invocation carries the fee 3000 and the
    deadline 9999999999, and a decreaseLiquidity invocation carries the
    same deadline. *)
Theorem fee_and_deadline_fixed :
  (∀ (o : oracle) w ta tb pool t0 t1 a0 a1 ex tok liq tr out a m args r,
     run o (Core.rebalance_liquidity w ta tb pool t0 t1 a0 a1 ex tok liq) []
       = (tr, out) →
     EvCall (InvokeContract a m args) r ∈ tr →
     (m = "mint" →
      args !! "fee" = Some (AInt 3000) ∧
      args !! "deadline" = Some (AInt 9999999999)) ∧
     (m = "decreaseLiquidity" →
      args !! "deadline" = Some (AInt 9999999999))) ∧
  (∀ (o : oracle) w ta tb pool t0 t1 a0 a1 tr out a m args r,
     run o (Chatbot.rebalance_liquidity w ta tb pool t0 t1 a0 a1) []
       = (tr, out) →
     EvCall (InvokeContract a m args) r ∈ tr →
     (m = "mint" →
      args !! "fee" = Some (AInt 3000) ∧
      args !! "deadline" = Some (AInt 9999999999)) ∧
     (m = "decreaseLiquidity" →
      args !! "deadline" = Some (AInt 9999999999))).
Proof.
  pose (P := λ c : call,
         match c with
         | InvokeContract _ m args =>
             (m = "mint" →
              args !! "fee" = Some (AInt 3000) ∧
              args !! "deadline" = Some (AInt 9999999999)) ∧
             (m = "decreaseLiquidity" →
              args !! "deadline" = Some (AInt 9999999999))
         | _ => True
         end).
  split.
  - intros o w ta tb pool t0 t1 a0 a1 ex tok liq tr out a m args r Hrun Hin.
    refine (issued_invocation P _ o tr out a m args r _ Hrun Hin).
    unfold_actions; issues_tac; try exact I;
      (split; intros ?; try discriminate; done).
  - intros o w ta tb pool t0 t1 a0 a1 tr out a m args r Hrun Hin.
    refine (issued_invocation P _ o tr out a m args r _ Hrun Hin).
    unfold_actions; issues_tac; try exact I;
      (split; intros ?; try discriminate; done).
Qed.

Lemma fee_and_deadline_fixed_witness :
  Core.mint_args dummy_wallet 1000 2000 "0xPoolAddress" "0xToken0Address"
    "0xToken1Address" "1000000000000000000" "2000000000000000000" !! "fee"
    = Some (AInt 3000) ∧
  Core.mint_args dummy_wallet 1000 2000 "0xPoolAddress" "0xToken0Address"
    "0xToken1Address" "1000000000000000000" "2000000000000000000" !! "deadline"
    = Some (AInt 9999999999).
Proof.
  refine (proj1 (proj1 fee_and_deadline_fixed (scripted rebalance_script)
            dummy_wallet 1000 2000 "0xPoolAddress"
            "0xToken0Address" "0xToken1Address"
            "1000000000000000000" "2000000000000000000"
            true (AStr "1234") (AStr "1000") _ _
            Core.NM_POSITION_MANAGER "mint" _ (Returned (Obj 4))
            eq_refl _) eq_refl).
  apply (list_elem_of_lookup_2 _ 10%nat). reflexivity.
Defined.

(** ** C6: no slippage protection *)

(** C6: in every run of either action, a mint or decreaseLiquidity
    invocation carries the text "0" as [amount0Min] and as [amount1Min],
    whatever amounts the caller desires. *)
Theorem minimum_amounts_zero :
  (∀ (o : oracle) w ta tb pool t0 t1 a0 a1 ex tok liq tr out a m args r,
     run o (Core.rebalance_liquidity w ta tb pool t0 t1 a0 a1 ex tok liq) []
       = (tr, out) →
     EvCall (InvokeContract a m args) r ∈ tr →
     m = "mint" ∨ m = "decreaseLiquidity" →
     args !! "amount0Min" = Some (AStr "0") ∧
     args !! "amount1Min" = Some (AStr "0")) ∧
  (∀ (o : oracle) w ta tb pool t0 t1 a0 a1 tr out a m args r,
     run o (Chatbot.rebalance_liquidity w ta tb pool t0 t1 a0 a1) []
       = (tr, out) →
     EvCall (InvokeContract a m args) r ∈ tr →
     m = "mint" ∨ m = "decreaseLiquidity" →
     args !! "amount0Min" = Some (AStr "0") ∧
     args !! "amount1Min" = Some (AStr "0")).
Proof.
  pose (P := λ c : call,
         match c with
         | InvokeContract _ m args =>
             m = "mint" ∨ m = "decreaseLiquidity" →
             args !! "amount0Min" = Some (AStr "0") ∧
             args !! "amount1Min" = Some (AStr "0")
         | _ => True
         end).
  split.
  - intros o w ta tb pool t0 t1 a0 a1 ex tok liq tr out a m args r Hrun Hin.
    refine (issued_invocation P _ o tr out a m args r _ Hrun Hin).
    unfold_actions; issues_tac; try exact I;
      (intros [?|?]; try discriminate; done).
  - intros o w ta tb pool t0 t1 a0 a1 tr out a m args r Hrun Hin.
    refine (issued_invocation P _ o tr out a m args r _ Hrun Hin).
    unfold_actions; issues_tac; try exact I;
      (intros [?|?]; try discriminate; done).
Qed.

Lemma minimum_amounts_zero_witness :
  Chatbot.decrease_args (AStr "1234") (AStr "1000") !! "amount0Min"
    = Some (AStr "0") ∧
  Chatbot.decrease_args (AStr "1234") (AStr "1000") !! "amount1Min"
    = Some (AStr "0").
Proof.
  refine (proj2 minimum_amounts_zero (scripted (holding_script (AStr "1000")))
            dummy_wallet 1000 2000 "0xPoolAddress"
            "0xToken0Address" "0xToken1Address"
            "1000000000000000000" "2000000000000000000" _ _
            Chatbot.NM_POSITION_MANAGER "decreaseLiquidity" _ (Returned (Obj 1))
            eq_refl _ (or_intror eq_refl)).
  apply (list_elem_of_lookup_2 _ 2%nat). reflexivity.
Defined.

(** ** C7: the token of the final mint in the returned text *)



(** ** C8: one invocation at a time *)

(** C8: in every run of the core action, between two invocations the first
    one has returned an object and [wait()] on that very object has
    returned: no invocation is issued while the previous one is
    unconfirmed.  With the order of C3, the wait of decreaseLiquidity
    comes before collect, that of collect before burn, and that of burn
    before the mint. *)
Theorem invocations_wait_for_confirmation
    (o : oracle) w ta tb pool t0 t1 a0 a1 ex tok liq tr out
    pre c1 r1 mid c2 r2 post :
  run o (Core.rebalance_liquidity w ta tb pool t0 t1 a0 a1 ex tok liq) []
    = (tr, out) →
  tr = pre ++ EvCall c1 r1 :: mid ++ EvCall c2 r2 :: post →
  is_invoke c1 = true → is_invoke c2 = true →
  ∃ h x, r1 = Returned (Obj h) ∧ EvCall (Wait h) (Returned x) ∈ mid.
Proof.
  intros Hrun.
  exact (proj1 (blocking_sound None tr (core_blocking _ _ _ _ _ _ _ _ _ _ _ _ _ _ Hrun))
           pre c1 r1 mid c2 r2 post).
Qed.

Lemma invocations_wait_for_confirmation_witness :
  ∃ h x,
    Returned (Obj 1) = Returned (Obj h) ∧
    EvCall (Wait h) (Returned x)
      ∈ [ EvCall (Wait 1) (Returned (Atom ANone));
          EvOut "Collecting fees from the old position..." ].
Proof.
  refine (invocations_wait_for_confirmation (scripted rebalance_script)
            dummy_wallet 1000 2000 "0xPoolAddress"
            "0xToken0Address" "0xToken1Address"
            "1000000000000000000" "2000000000000000000"
            true (AStr "1234") (AStr "1000") _ _
            [ EvOut "Removing liquidity from existing position (token ID 1234)..." ]
            (InvokeContract Core.NM_POSITION_MANAGER "decreaseLiquidity"
               (Core.decrease_args "0xPoolAddress" (AStr "1234") (AStr "1000")))
            (Returned (Obj 1))
            [ EvCall (Wait 1) (Returned (Atom ANone));
              EvOut "Collecting fees from the old position..." ]
            (InvokeContract Core.NM_POSITION_MANAGER "collect"
               (Core.collect_args dummy_wallet "1000000000000000000"
                  "2000000000000000000" (AStr "1234")))
            (Returned (Obj 2))
            _ eq_refl _ eq_refl eq_refl).
  instantiate (1 :=
    drop 5 (run (scripted rebalance_script)
              (Core.rebalance_liquidity dummy_wallet 1000 2000 "0xPoolAddress"
                 "0xToken0Address" "0xToken1Address"
                 "1000000000000000000" "2000000000000000000"
                 true (AStr "1234") (AStr "1000")) []).1).
  reflexivity.
Defined.

(** ** C9: the zero check of the chatbot *)

(** C9: in the chatbot, when the reported position has a true [tokenId]
    and a liquidity other than the text "0", the check passes: the
    first invocation is decreaseLiquidity, issued with that liquidity, and
    the call does not end with the message of an invalid position.  This
    covers every zero that is not written "0", such as the integer 0 and
    the text "00". *)
Theorem chatbot_zero_check_is_textual
    (o : oracle) w ta tb pool t0 t1 a0 a1 d tr out :
  let tok := default ANone (d !! "tokenId") in
  let liq := default ANone (d !! "liquidity") in
  o [] (GetLiquidityPosition pool) = Returned (Dict d) →
  truthy tok = true →
  liq ≠ AStr "0" →
  run o (Chatbot.rebalance_liquidity w ta tb pool t0 t1 a0 a1) [] = (tr, out) →
  ∃ args r rest,
    tr = EvCall (GetLiquidityPosition pool) (Returned (Dict d))
         :: EvOut ("Removing liquidity from existing position (token ID " +:+
                   py_str tok +:+ ")...")
         :: EvCall (InvokeContract Chatbot.NM_POSITION_MANAGER
                      "decreaseLiquidity" args) r
         :: rest ∧
    args !! "liquidity" = Some liq ∧
    out ≠ Return Chatbot.invalid_message.
Proof.
  intros tok liq Hpos Htok Hliq H. unfold Chatbot.rebalance_liquidity in H.
  exec_in H. rewrite Hpos in H. exec_in H.
  rewrite (dict_truthy d "tokenId" Htok) in H. exec_in H.
  fold tok liq in H. rewrite Htok, (py_eq_str _ _ Hliq) in H.
  cbn [negb orb] in H.
  run_cases o H; injection H as <- <-;
    (eexists _, _, _; split; [reflexivity|split; [reflexivity|]]);
    discriminate.
Qed.

Lemma chatbot_zero_check_is_textual_witness :
  (∃ args r rest,
     (run (scripted (holding_script (AInt 0)))
        (Chatbot.rebalance_liquidity dummy_wallet 1000 2000 "0xPoolAddress"
           "0xToken0Address" "0xToken1Address"
           "1000000000000000000" "2000000000000000000") []).1
     = EvCall (GetLiquidityPosition "0xPoolAddress")
              (Returned (Dict (held_position (AInt 0))))
       :: EvOut "Removing liquidity from existing position (token ID 1234)..."
       :: EvCall (InvokeContract Chatbot.NM_POSITION_MANAGER
                    "decreaseLiquidity" args) r
       :: rest ∧
     args !! "liquidity" = Some (AInt 0) ∧
     (run (scripted (holding_script (AInt 0)))
        (Chatbot.rebalance_liquidity dummy_wallet 1000 2000 "0xPoolAddress"
           "0xToken0Address" "0xToken1Address"
           "1000000000000000000" "2000000000000000000") []).2
     ≠ Return Chatbot.invalid_message) ∧
  (∃ args r rest,
     (run (scripted (holding_script (AStr "00")))
        (Chatbot.rebalance_liquidity dummy_wallet 1000 2000 "0xPoolAddress"
           "0xToken0Address" "0xToken1Address"
           "1000000000000000000" "2000000000000000000") []).1
     = EvCall (GetLiquidityPosition "0xPoolAddress")
              (Returned (Dict (held_position (AStr "00"))))
       :: EvOut "Removing liquidity from existing position (token ID 1234)..."
       :: EvCall (InvokeContract Chatbot.NM_POSITION_MANAGER
                    "decreaseLiquidity" args) r
       :: rest ∧
     args !! "liquidity" = Some (AStr "00") ∧
     (run (scripted (holding_script (AStr "00")))
        (Chatbot.rebalance_liquidity dummy_wallet 1000 2000 "0xPoolAddress"
           "0xToken0Address" "0xToken1Address"
           "1000000000000000000" "2000000000000000000") []).2
     ≠ Return Chatbot.invalid_message).
Proof.
  split.
  - refine (chatbot_zero_check_is_textual (scripted (holding_script (AInt 0)))
              dummy_wallet 1000 2000 "0xPoolAddress"
              "0xToken0Address" "0xToken1Address"
              "1000000000000000000" "2000000000000000000"
              (held_position (AInt 0)) _ _ eq_refl eq_refl _ eq_refl).
    discriminate.
  - refine (chatbot_zero_check_is_textual (scripted (holding_script (AStr "00")))
              dummy_wallet 1000 2000 "0xPoolAddress"
              "0xToken0Address" "0xToken1Address"
              "1000000000000000000" "2000000000000000000"
              (held_position (AStr "00")) _ _ eq_refl eq_refl _ eq_refl).
    discriminate.
Defined.

(** ** C10: what the collect may take *)

(** C10: in every run of either action, a collect invocation carries the
    desired amounts of the caller as [amount0Max] and [amount1Max]. *)
Theorem collect_capped_by_desired_amounts :
  (∀ (o : oracle) w ta tb pool t0 t1 a0 a1 ex tok liq tr out a args r,
     run o (Core.rebalance_liquidity w ta tb pool t0 t1 a0 a1 ex tok liq) []
       = (tr, out) →
     EvCall (InvokeContract a "collect" args) r ∈ tr →
     args !! "amount0Max" = Some (AStr a0) ∧
     args !! "amount1Max" = Some (AStr a1)) ∧
  (∀ (o : oracle) w ta tb pool t0 t1 a0 a1 tr out a args r,
     run o (Chatbot.rebalance_liquidity w ta tb pool t0 t1 a0 a1) []
       = (tr, out) →
     EvCall (InvokeContract a "collect" args) r ∈ tr →
     args !! "amount0Max" = Some (AStr a0) ∧
     args !! "amount1Max" = Some (AStr a1)).
Proof.
  split; intros o w ta tb pool t0 t1 a0 a1.
  - intros ex tok liq tr out a args r Hrun Hin.
    refine (issued_invocation
              (λ c, match c with
                    | InvokeContract _ m args =>
                        m = "collect" →
                        args !! "amount0Max" = Some (AStr a0) ∧
                        args !! "amount1Max" = Some (AStr a1)
                    | _ => True
                    end) _ o tr out a "collect" args r _ Hrun Hin eq_refl).
    unfold_actions; issues_tac; try exact I; (intros ?; try discriminate; done).
  - intros tr out a args r Hrun Hin.
    refine (issued_invocation
              (λ c, match c with
                    | InvokeContract _ m args =>
                        m = "collect" →
                        args !! "amount0Max" = Some (AStr a0) ∧
                        args !! "amount1Max" = Some (AStr a1)
                    | _ => True
                    end) _ o tr out a "collect" args r _ Hrun Hin eq_refl).
    unfold_actions; issues_tac; try exact I; (intros ?; try discriminate; done).
Qed.

Lemma collect_capped_by_desired_amounts_witness :
  Core.collect_args dummy_wallet "1000000000000000000" "2000000000000000000"
    (AStr "1234") !! "amount0Max" = Some (AStr "1000000000000000000") ∧
  Core.collect_args dummy_wallet "1000000000000000000" "2000000000000000000"
    (AStr "1234") !! "amount1Max" = Some (AStr "2000000000000000000").
Proof.
  refine (proj1 collect_capped_by_desired_amounts (scripted rebalance_script)
            dummy_wallet 1000 2000 "0xPoolAddress"
            "0xToken0Address" "0xToken1Address"
            "1000000000000000000" "2000000000000000000"
            true (AStr "1234") (AStr "1000") _ _
            Core.NM_POSITION_MANAGER _ (Returned (Obj 2))
            eq_refl _).
  apply (list_elem_of_lookup_2 _ 4%nat). reflexivity.
Defined.

(** * Further properties of the two actions *)

(** ** The early answer *)

(** X1: in the core action, a rebalancing whose identifier is false
    (missing or empty), whatever the liquidity, or whose liquidity reads
    as the integer zero, answers with the message of an invalid position
    without printing anything and without calling the wallet. *)
Theorem core_invalid_position_is_silent
    (o : oracle) w ta tb pool t0 t1 a0 a1 tok liq :
  truthy tok = false ∨ py_int liq = Ret 0 →
  run o (Core.rebalance_liquidity w ta tb pool t0 t1 a0 a1 true tok liq) []
    = ([], Return "Existing liquidity position is invalid or has zero liquidity.").
Proof.
  intros Hinvalid. unfold Core.rebalance_liquidity, Core.invalid_position.
  cbn [negb]. destruct (truthy tok) eqn:Htok; cbn [negb]; [|reflexivity].
  destruct Hinvalid as [? | ->]; [done|reflexivity].
Qed.

Lemma core_invalid_position_is_silent_witness :
  run (scripted []) (Core.rebalance_liquidity dummy_wallet 1000 2000
        "0xPoolAddress" "0xToken0Address" "0xToken1Address"
        "1000000000000000000" "2000000000000000000"
        true (AStr "") (AStr "not a number")) []
    = ([], Return "Existing liquidity position is invalid or has zero liquidity.") ∧
  run (scripted []) (Core.rebalance_liquidity dummy_wallet 1000 2000
        "0xPoolAddress" "0xToken0Address" "0xToken1Address"
        "1000000000000000000" "2000000000000000000"
        true (AStr "1234") (AStr " 00 ")) []
    = ([], Return "Existing liquidity position is invalid or has zero liquidity.").
Proof.
  split.
  - apply core_invalid_position_is_silent. left. reflexivity.
  - apply core_invalid_position_is_silent. right. reflexivity.
Defined.

(** X2: in the chatbot, a reported position (a non-empty dictionary) whose
    [tokenId] is missing or false, or whose liquidity equals the text "0",
    gets the message of an invalid position; the query of the position is
    the only call, nothing is printed and nothing is invoked. *)
Theorem chatbot_invalid_position_only_queries
    (o : oracle) w ta tb pool t0 t1 a0 a1 d :
  o [] (GetLiquidityPosition pool) = Returned (Dict d) →
  d ≠ ∅ →
  truthy (default ANone (d !! "tokenId")) = false ∨
    d !! "liquidity" = Some (AStr "0") →
  run o (Chatbot.rebalance_liquidity w ta tb pool t0 t1 a0 a1) []
    = ([EvCall (GetLiquidityPosition pool) (Returned (Dict d))],
       Return "Existing liquidity position is invalid or has zero liquidity.").
Proof.
  intros Hpos Hne Hinvalid. unfold Chatbot.rebalance_liquidity.
  assert (Htrue : truthy_val (Dict d) = true).
  { cbn. by rewrite bool_decide_eq_false_2. }
  cbn [run prog_bind mbind mret prog_mbind prog_ret perform
       Chatbot.get_liquidity_position app].
  rewrite Hpos.
  cbn [run prog_bind mbind mret prog_mbind prog_ret app].
  rewrite Htrue.
  cbn [run prog_bind mbind mret prog_mbind prog_ret get negb app].
  destruct Hinvalid as [-> | ->]; [reflexivity|].
  cbn [default]. by rewrite orb_true_r.
Qed.

Lemma chatbot_invalid_position_only_queries_witness :
  run (scripted [Returned (Dict (held_position (AStr "0")))])
      (Chatbot.rebalance_liquidity dummy_wallet 1000 2000 "0xPoolAddress"
         "0xToken0Address" "0xToken1Address"
         "1000000000000000000" "2000000000000000000") []
    = ([EvCall (GetLiquidityPosition "0xPoolAddress")
          (Returned (Dict (held_position (AStr "0"))))],
       Return "Existing liquidity position is invalid or has zero liquidity.").
Proof.
  apply chatbot_invalid_position_only_queries.
  - reflexivity.
  - intros H. apply (f_equal (λ m : dict, m !! "tokenId")) in H. discriminate H.
  - right. reflexivity.
Defined.

(** ** Where the invocations go and what they carry *)

(** X3: the core action only ever invokes the position manager, and only
    its methods mint, decreaseLiquidity, collect and burn; it never checks
    or requests a token approval.  The chatbot invokes the position manager
    too, except for approve, which it invokes on the contract of token0 or
    of token1. *)
Theorem invocation_targets :
  (∀ (o : oracle) w ta tb pool t0 t1 a0 a1 ex tok liq tr out c r,
     run o (Core.rebalance_liquidity w ta tb pool t0 t1 a0 a1 ex tok liq) []
       = (tr, out) →
     EvCall c r ∈ tr →
     match c with
     | InvokeContract a m _ =>
         a = "0x03a520b32C04BF3bEEf7BEb72E919cf822Ed34f1" ∧
         m ∈ ["mint"; "decreaseLiquidity"; "collect"; "burn"]
     | Wait _ => True
     | GetLiquidityPosition _ | HasTokenApproval _ _ => False
     end) ∧
  (∀ (o : oracle) w ta tb pool t0 t1 a0 a1 tr out a m args r,
     run o (Chatbot.rebalance_liquidity w ta tb pool t0 t1 a0 a1) []
       = (tr, out) →
     EvCall (InvokeContract a m args) r ∈ tr →
     (m = "approve" ∧ (a = t0 ∨ a = t1)) ∨
     (a = "0x27F971cb582BF9E50F397e4d29a5C7A34f11faA2" ∧
      m ∈ ["mint"; "decreaseLiquidity"; "collect"; "burn"])).
Proof.
  split.
  - intros o w ta tb pool t0 t1 a0 a1 ex tok liq tr out c r Hrun Hin.
    pose (P := λ c : call,
           match c with
           | InvokeContract a m _ =>
               a = "0x03a520b32C04BF3bEEf7BEb72E919cf822Ed34f1" ∧
               m ∈ ["mint"; "decreaseLiquidity"; "collect"; "burn"]
           | Wait _ => True
           | GetLiquidityPosition _ | HasTokenApproval _ _ => False
           end).
    assert (Hall : calls_in P tr).
    { eapply issues_run; [|exact Hrun|constructor].
      unfold_actions; issues_tac; try exact I;
        (split; [reflexivity|set_solver]). }
    unfold calls_in in Hall. rewrite Forall_forall in Hall.
    exact (Hall _ Hin).
  - intros o w ta tb pool t0 t1 a0 a1 tr out a m args r Hrun Hin.
    refine (issued_invocation
              (λ c, match c with
                    | InvokeContract a m _ =>
                        (m = "approve" ∧ (a = t0 ∨ a = t1)) ∨
                        (a = "0x27F971cb582BF9E50F397e4d29a5C7A34f11faA2" ∧
                         m ∈ ["mint"; "decreaseLiquidity"; "collect"; "burn"])
                    | _ => True
                    end) _ o tr out a m args r _ Hrun Hin).
    unfold_actions; issues_tac; try exact I;
      first [ left; split; [reflexivity|]; by auto
            | right; split; [reflexivity|set_solver] ].
Qed.

Lemma invocation_targets_witness :
  ("approve" = "approve" ∧
   ("0xToken0Address" = "0xToken0Address" ∨
    "0xToken0Address" = "0xToken1Address")) ∨
  ("0xToken0Address" = "0x27F971cb582BF9E50F397e4d29a5C7A34f11faA2" ∧
   "approve" ∈ ["mint"; "decreaseLiquidity"; "collect"; "burn"]).
Proof.
  refine (proj2 invocation_targets (scripted unapproved_script)
            dummy_wallet 1000 2000 "0xPoolAddress"
            "0xToken0Address" "0xToken1Address"
            "1000000000000000000" "2000000000000000000" _ _
            "0xToken0Address" "approve"
            (Chatbot.approve_args "1000000000000000000") (Returned (Obj 1))
            eq_refl _).
  apply (list_elem_of_lookup_2 _ 3%nat). reflexivity.
Defined.

(** X4: an approval requested by the chatbot names the position manager as
    spender and, as value, exactly the amount desired of the token whose
    contract is invoked: never more than the deposit. *)
Theorem approval_is_exact
    (o : oracle) w ta tb pool t0 t1 a0 a1 tr out a args r :
  run o (Chatbot.rebalance_liquidity w ta tb pool t0 t1 a0 a1) [] = (tr, out) →
  EvCall (InvokeContract a "approve" args) r ∈ tr →
  args !! "spender"
    = Some (AStr "0x27F971cb582BF9E50F397e4d29a5C7A34f11faA2") ∧
  ((a = t0 ∧ args !! "value" = Some (AStr a0)) ∨
   (a = t1 ∧ args !! "value" = Some (AStr a1))).
Proof.
  intros Hrun Hin.
  refine (issued_invocation
            (λ c, match c with
                  | InvokeContract a m args =>
                      m = "approve" →
                      args !! "spender"
                        = Some (AStr "0x27F971cb582BF9E50F397e4d29a5C7A34f11faA2") ∧
                      ((a = t0 ∧ args !! "value" = Some (AStr a0)) ∨
                       (a = t1 ∧ args !! "value" = Some (AStr a1)))
                  | _ => True
                  end) _ o tr out a "approve" args r _ Hrun Hin eq_refl).
  unfold_actions; issues_tac; try exact I;
    (intros ?; first [discriminate | split; [reflexivity|]; by auto]).
Qed.

Lemma approval_is_exact_witness :
  Chatbot.approve_args "2000000000000000000" !! "spender"
    = Some (AStr "0x27F971cb582BF9E50F397e4d29a5C7A34f11faA2") ∧
  (("0xToken1Address" = "0xToken0Address" ∧
    Chatbot.approve_args "2000000000000000000" !! "value"
      = Some (AStr "1000000000000000000")) ∨
   ("0xToken1Address" = "0xToken1Address" ∧
    Chatbot.approve_args "2000000000000000000" !! "value"
      = Some (AStr "2000000000000000000"))).
Proof.
  refine (approval_is_exact (scripted unapproved_script)
            dummy_wallet 1000 2000 "0xPoolAddress"
            "0xToken0Address" "0xToken1Address"
            "1000000000000000000" "2000000000000000000" _ _
            "0xToken1Address" _ (Returned (Obj 2)) eq_refl _).
  apply (list_elem_of_lookup_2 _ 7%nat). reflexivity.
Defined.

(** X5: tokens and fees go to the wallet itself: in every run of either
    action, a mint or collect invocation names the address of the wallet as
    recipient. *)
Theorem recipient_is_the_wallet :
  (∀ (o : oracle) w ta tb pool t0 t1 a0 a1 ex tok liq tr out a m args r,
     run o (Core.rebalance_liquidity w ta tb pool t0 t1 a0 a1 ex tok liq) []
       = (tr, out) →
     EvCall (InvokeContract a m args) r ∈ tr →
     m = "mint" ∨ m = "collect" →
     args !! "recipient" = Some (address w)) ∧
  (∀ (o : oracle) w ta tb pool t0 t1 a0 a1 tr out a m args r,
     run o (Chatbot.rebalance_liquidity w ta tb pool t0 t1 a0 a1) []
       = (tr, out) →
     EvCall (InvokeContract a m args) r ∈ tr →
     m = "mint" ∨ m = "collect" →
     args !! "recipient" = Some (address w)).
Proof.
  split.
  - intros o w ta tb pool t0 t1 a0 a1 ex tok liq tr out a m args r Hrun Hin.
    refine (issued_invocation
              (λ c, match c with
                    | InvokeContract _ m args =>
                        m = "mint" ∨ m = "collect" →
                        args !! "recipient" = Some (address w)
                    | _ => True
                    end) _ o tr out a m args r _ Hrun Hin).
    unfold_actions; issues_tac; try exact I;
      (intros [?|?]; try discriminate; done).
  - intros o w ta tb pool t0 t1 a0 a1 tr out a m args r Hrun Hin.
    refine (issued_invocation
              (λ c, match c with
                    | InvokeContract _ m args =>
                        m = "mint" ∨ m = "collect" →
                        args !! "recipient" = Some (address w)
                    | _ => True
                    end) _ o tr out a m args r _ Hrun Hin).
    unfold_actions; issues_tac; try exact I;
      (intros [?|?]; try discriminate; done).
Qed.

Lemma recipient_is_the_wallet_witness :
  Core.collect_args dummy_wallet "1000000000000000000" "2000000000000000000"
    (AStr "1234") !! "recipient" = Some (AStr "0xDummyWalletAddress").
Proof.
  refine (proj1 recipient_is_the_wallet (scripted rebalance_script)
            dummy_wallet 1000 2000 "0xPoolAddress"
            "0xToken0Address" "0xToken1Address"
            "1000000000000000000" "2000000000000000000"
            true (AStr "1234") (AStr "1000") _ _
            Core.NM_POSITION_MANAGER "collect" _ (Returned (Obj 2))
            eq_refl _ (or_intror eq_refl)).
  apply (list_elem_of_lookup_2 _ 4%nat). reflexivity.
Defined.

(** X6: the core action forwards the identifiers of the old position as
    they were given: decreaseLiquidity, collect and burn carry
    [existing_tokenId], and decreaseLiquidity carries [existing_liquidity]
    itself, the text the caller wrote and not the integer that the check
    read from it. *)
Theorem core_forwards_position_verbatim
    (o : oracle) w ta tb pool t0 t1 a0 a1 ex tok liq tr out a m args r :
  run o (Core.rebalance_liquidity w ta tb pool t0 t1 a0 a1 ex tok liq) []
    = (tr, out) →
  EvCall (InvokeContract a m args) r ∈ tr →
  (m ∈ ["decreaseLiquidity"; "collect"; "burn"] →
   args !! "tokenId" = Some tok) ∧
  (m = "decreaseLiquidity" → args !! "liquidity" = Some liq).
Proof.
  intros Hrun Hin.
  refine (issued_invocation
            (λ c, match c with
                  | InvokeContract _ m args =>
                      (m ∈ ["decreaseLiquidity"; "collect"; "burn"] →
                       args !! "tokenId" = Some tok) ∧
                      (m = "decreaseLiquidity" → args !! "liquidity" = Some liq)
                  | _ => True
                  end) _ o tr out a m args r _ Hrun Hin).
  unfold_actions; issues_tac; try exact I;
    (split; intros Hm; first
       [ discriminate Hm | reflexivity
       | repeat (apply elem_of_cons in Hm as [Hm|Hm]; [discriminate Hm|]);
         by apply elem_of_nil in Hm ]).
Qed.

Lemma core_forwards_position_verbatim_witness :
  Core.decrease_args "0xPoolAddress" (AStr "1234") (AStr " 1_000 ")
    !! "liquidity" = Some (AStr " 1_000 ").
Proof.
  refine (proj2 (core_forwards_position_verbatim
            (scripted rebalance_script)
            dummy_wallet 1000 2000 "0xPoolAddress"
            "0xToken0Address" "0xToken1Address"
            "1000000000000000000" "2000000000000000000"
            true (AStr "1234") (AStr " 1_000 ") _ _
            Core.NM_POSITION_MANAGER "decreaseLiquidity" _ (Returned (Obj 1))
            eq_refl _) eq_refl).
  apply (list_elem_of_lookup_2 _ 1%nat). reflexivity.
Defined.

(** X7: every mint, in every run of either action, carries the two tokens,
    the tick range and the desired amounts exactly as the caller gave
    them. *)
Theorem mint_forwards_parameters :
  (∀ (o : oracle) w ta tb pool t0 t1 a0 a1 ex tok liq tr out a args r,
     run o (Core.rebalance_liquidity w ta tb pool t0 t1 a0 a1 ex tok liq) []
       = (tr, out) →
     EvCall (InvokeContract a "mint" args) r ∈ tr →
     args !! "token0" = Some (AStr t0) ∧ args !! "token1" = Some (AStr t1) ∧
     args !! "tickLower" = Some (AInt ta) ∧ args !! "tickUpper" = Some (AInt tb) ∧
     args !! "amount0Desired" = Some (AStr a0) ∧
     args !! "amount1Desired" = Some (AStr a1)) ∧
  (∀ (o : oracle) w ta tb pool t0 t1 a0 a1 tr out a args r,
     run o (Chatbot.rebalance_liquidity w ta tb pool t0 t1 a0 a1) []
       = (tr, out) →
     EvCall (InvokeContract a "mint" args) r ∈ tr →
     args !! "token0" = Some (AStr t0) ∧ args !! "token1" = Some (AStr t1) ∧
     args !! "tickLower" = Some (AInt ta) ∧ args !! "tickUpper" = Some (AInt tb) ∧
     args !! "amount0Desired" = Some (AStr a0) ∧
     args !! "amount1Desired" = Some (AStr a1)).
Proof.
  split.
  - intros o w ta tb pool t0 t1 a0 a1 ex tok liq tr out a args r Hrun Hin.
    refine (issued_invocation
              (λ c, match c with
                    | InvokeContract _ m args =>
                        m = "mint" →
                        args !! "token0" = Some (AStr t0) ∧
                        args !! "token1" = Some (AStr t1) ∧
                        args !! "tickLower" = Some (AInt ta) ∧
                        args !! "tickUpper" = Some (AInt tb) ∧
                        args !! "amount0Desired" = Some (AStr a0) ∧
                        args !! "amount1Desired" = Some (AStr a1)
                    | _ => True
                    end) _ o tr out a "mint" args r _ Hrun Hin eq_refl).
    unfold_actions; issues_tac; try exact I;
      (intros ?; try discriminate; done).
  - intros o w ta tb pool t0 t1 a0 a1 tr out a args r Hrun Hin.
    refine (issued_invocation
              (λ c, match c with
                    | InvokeContract _ m args =>
                        m = "mint" →
                        args !! "token0" = Some (AStr t0) ∧
                        args !! "token1" = Some (AStr t1) ∧
                        args !! "tickLower" = Some (AInt ta) ∧
                        args !! "tickUpper" = Some (AInt tb) ∧
                        args !! "amount0Desired" = Some (AStr a0) ∧
                        args !! "amount1Desired" = Some (AStr a1)
                    | _ => True
                    end) _ o tr out a "mint" args r _ Hrun Hin eq_refl).
    unfold_actions; issues_tac; try exact I;
      (intros ?; try discriminate; done).
Qed.

Lemma mint_forwards_parameters_witness :
  let args := Chatbot.mint_args dummy_wallet 1000 2000 "0xToken0Address"
                "0xToken1Address" "1000000000000000000" "2000000000000000000" in
  args !! "token0" = Some (AStr "0xToken0Address") ∧
  args !! "token1" = Some (AStr "0xToken1Address") ∧
  args !! "tickLower" = Some (AInt 1000) ∧
  args !! "tickUpper" = Some (AInt 2000) ∧
  args !! "amount0Desired" = Some (AStr "1000000000000000000") ∧
  args !! "amount1Desired" = Some (AStr "2000000000000000000").
Proof.
  refine (proj2 mint_forwards_parameters (scripted unapproved_script)
            dummy_wallet 1000 2000 "0xPoolAddress"
            "0xToken0Address" "0xToken1Address"
            "1000000000000000000" "2000000000000000000" _ _
            Chatbot.NM_POSITION_MANAGER _ (Returned (Obj 3)) eq_refl _).
  apply (list_elem_of_lookup_2 _ 10%nat). reflexivity.
Defined.

(** ** Partial runs *)

(** X8: whatever the wallet answers, and however the run ends, the
    invocations of a rebalancing are an initial part of decreaseLiquidity,
    collect, burn, mint: nothing is repeated, nothing is skipped, and in
    particular the position is not burned before its liquidity was removed
    and its fees collected, and no mint precedes the burn.  In the chatbot
    the invocations of any run are an initial part of that sequence or of
    at most two approvals followed by the mint. *)
Theorem invocations_form_a_prefix :
  (∀ (o : oracle) w ta tb pool t0 t1 a0 a1 tok liq tr out,
     run o (Core.rebalance_liquidity w ta tb pool t0 t1 a0 a1 true tok liq) []
       = (tr, out) →
     methods tr `prefix_of` ["decreaseLiquidity"; "collect"; "burn"; "mint"]) ∧
  (∀ (o : oracle) w ta tb pool t0 t1 a0 a1 tr out,
     run o (Chatbot.rebalance_liquidity w ta tb pool t0 t1 a0 a1) []
       = (tr, out) →
     methods tr `prefix_of` ["decreaseLiquidity"; "collect"; "burn"; "mint"] ∨
     methods tr `prefix_of` ["mint"] ∨
     methods tr `prefix_of` ["approve"; "mint"] ∨
     methods tr `prefix_of` ["approve"; "approve"; "mint"]).
Proof.
  split.
  - intros o w ta tb pool t0 t1 a0 a1 tok liq tr out H.
    unfold Core.rebalance_liquidity, Core.invalid_position in H.
    cbn [negb] in H.
    destruct (truthy tok); cbn [negb] in H.
    + destruct liq as [|b|z|l]; cbn [py_int] in H.
      all: try destruct (int_of_str l).
      all: exec_in H.
      all: try match type of H with context [?n =? 0] => destruct (n =? 0) end.
      all: run_cases o H; injection H as <- <-; by eexists.
    + run_cases o H; injection H as <- <-; by eexists.
  - intros o w ta tb pool t0 t1 a0 a1 tr out H.
    unfold Chatbot.rebalance_liquidity in H.
    run_cases o H;
      try match type of H with
          | context [if ?b then _ else _] => destruct b
          end;
      run_cases o H; injection H as <- <-;
      first [ left; by eexists | right; left; by eexists
            | right; right; left; by eexists
            | right; right; right; by eexists ].
Qed.

Lemma invocations_form_a_prefix_witness :
  methods
    (run (scripted reverting_script)
       (Core.rebalance_liquidity dummy_wallet 1000 2000 "0xPoolAddress"
          "0xToken0Address" "0xToken1Address"
          "1000000000000000000" "2000000000000000000"
          true (AStr "1234") (AStr "1000")) []).1
    `prefix_of` ["decreaseLiquidity"; "collect"; "burn"; "mint"].
Proof.
  exact (proj1 invocations_form_a_prefix (scripted reverting_script)
           dummy_wallet 1000 2000 "0xPoolAddress"
           "0xToken0Address" "0xToken1Address"
           "1000000000000000000" "2000000000000000000"
           (AStr "1234") (AStr "1000") _
           (Raise (External "execution reverted")) eq_refl).
Defined.

(** * The console program *)

Import Console.

(** ** Helpers *)

Lemma print_stream_streamed chunks raised :
  streamed (print_stream chunks raised).1 = [].
Proof.
  induction chunks as [|ch chunks IH]; cbn; [done|].
  unfold print_chunk.
  destruct (ch !! "agent") as [[|??]|]; [done| |].
  - destruct (print_stream chunks raised); cbn in *. exact IH.
  - destruct (ch !! "tools") as [[|??]|]; [done|..];
      destruct (print_stream chunks raised); cbn in *; exact IH.
Qed.

Lemma print_stream_slept chunks raised :
  slept (print_stream chunks raised).1 = [].
Proof.
  induction chunks as [|ch chunks IH]; cbn; [done|].
  unfold print_chunk.
  destruct (ch !! "agent") as [[|??]|]; [done| |].
  - destruct (print_stream chunks raised); cbn in *. exact IH.
  - destruct (ch !! "tools") as [[|??]|]; [done|..];
      destruct (print_stream chunks raised); cbn in *; exact IH.
Qed.

Lemma streamed_app out out' : streamed (out ++ out') = streamed out ++ streamed out'.
Proof. apply omap_app. Qed.

Lemma slept_app out out' : slept (out ++ out') = slept out ++ slept out'.
Proof. apply omap_app. Qed.

(** One round of the chat loop with an executor that behaves. *)
Lemma chat_loop_round agent asked p stdin :
  well_behaved agent → lower p ≠ "exit" →
  ∃ out,
    streamed out = [] ∧
    chat_loop agent asked (Line p :: stdin)
    = (EPrompt (nl +:+ "Prompt: ") :: EStream p :: out
         ++ (chat_loop agent (asked ++ [p]) stdin).1,
       (chat_loop agent (asked ++ [p]) stdin).2).
Proof.
  intros Hagent Hp. cbn [chat_loop].
  rewrite bool_decide_eq_false_2 by done.
  specialize (Hagent asked p).
  pose proof (print_stream_streamed (agent asked p).1 (agent asked p).2) as Hs.
  destruct (agent asked p) as [chunks raised]. cbn in Hagent, Hs.
  destruct (print_stream chunks raised) as [out r]. cbn in Hagent, Hs. subst r.
  exists out. split; [exact Hs|].
  by destruct (chat_loop agent (asked ++ [p]) stdin).
Qed.

(** The chat loop over prompts that are not the exit word, with an
    executor that behaves: every prompt is streamed, then the loop goes on
    with the rest of the input. *)
Lemma chat_loop_prompts agent prompts :
  well_behaved agent → Forall (λ p, lower p ≠ "exit") prompts →
  ∀ asked stdin,
  ∃ out,
    streamed out = prompts ∧
    chat_loop agent asked ((Line <$> prompts) ++ stdin)
    = (out ++ (chat_loop agent (asked ++ prompts) stdin).1,
       (chat_loop agent (asked ++ prompts) stdin).2).
Proof.
  intros Hagent. induction 1 as [|p prompts Hp _ IH]; intros asked stdin.
  - exists []. split; [done|]. cbn [fmap list_fmap app].
    rewrite app_nil_r. by destruct (chat_loop agent asked stdin) as [? []].
  - destruct (chat_loop_round agent asked p ((Line <$> prompts) ++ stdin)
                Hagent Hp) as (out1 & Hs1 & Heq).
    destruct (IH (asked ++ [p]) stdin) as (out2 & Hs2 & Heq2).
    rewrite <- app_assoc in Heq2. cbn [app] in Heq2.
    exists (EPrompt (nl +:+ "Prompt: ") :: EStream p :: out1 ++ out2).
    split.
    + cbn. f_equal. by rewrite streamed_app, Hs1, Hs2.
    + cbn [fmap list_fmap app]. rewrite Heq, Heq2. cbn [fst snd].
      by rewrite <- !app_assoc.
Qed.

(** The file after [initialize_agent], step by step. *)
Lemma initialize_agent_wallet_file_eq (sdk : Sdk) (file : option string) :
  (initialize_agent sdk file).2
  = match ChatOpenAI sdk "gpt-4o-mini", CdpAgentkitWrapper sdk file with
    | inr _, inr agentkit =>
        match export_wallet sdk agentkit with
        | inr wallet_data => Some wallet_data
        | inl _ => file
        end
    | _, _ => file
    end.
Proof.
  unfold initialize_agent.
  destruct (ChatOpenAI sdk "gpt-4o-mini") as [e|llm]; [done|].
  destruct (CdpAgentkitWrapper sdk file) as [e|agentkit]; [done|].
  destruct (export_wallet sdk agentkit) as [e|wallet_data]; [done|].
  destruct (get_tools sdk agentkit) as [e|tools]; [done|].
  by destruct (create_react_agent sdk llm _ state_modifier).
Qed.

(** [choose_mode] only returns one of the two modes. *)
Lemma choose_mode_modes (stdin : list key) :
  match (choose_mode stdin).2.1 with
  | Done mode => mode = "chat" ∨ mode = "auto"
  | _ => True
  end.
Proof.
  induction stdin as [|[s|] stdin IH]; cbn; [done| |done].
  destruct (bool_decide (strip (lower s) ∈ ["1"; "chat"])); [by left|].
  destruct (bool_decide (strip (lower s) ∈ ["2"; "auto"])); [by right|].
  by destruct (choose_mode stdin) as [out [r rest]].
Qed.

(** What [choose_mode] leaves is the end of what it was given. *)
Lemma choose_mode_suffix (stdin : list key) :
  (choose_mode stdin).2.2 `suffix_of` stdin.
Proof.
  induction stdin as [|[s|] stdin IH]; cbn; [done| |by apply suffix_cons_r].
  destruct (bool_decide (strip (lower s) ∈ ["1"; "chat"]));
    [by apply suffix_cons_r|].
  destruct (bool_decide (strip (lower s) ∈ ["2"; "auto"]));
    [by apply suffix_cons_r|].
  destruct (choose_mode stdin) as [out [r rest]]. by apply suffix_cons_r.
Qed.

(** The chat loop only returns at an exit line. *)
Lemma chat_loop_done agent (stdin : list key) asked :
  (chat_loop agent asked stdin).2.1 = Done tt →
  ∃ l, Line l ∈ stdin ∧ lower l = "exit".
Proof.
  revert asked. induction stdin as [|[p|] stdin IH]; intros asked;
    cbn [chat_loop]; [done| |done].
  destruct (bool_decide (lower p = "exit")) eqn:Hp.
  { intros _. exists p. split; [apply list_elem_of_here|].
    by apply bool_decide_eq_true in Hp. }
  destruct (agent asked p) as [chunks raised].
  destruct (print_stream chunks raised) as [out [[]|]]; try done.
  specialize (IH (asked ++ [p])).
  destruct (chat_loop agent (asked ++ [p]) stdin) as [out' [r rest]].
  cbn in *. intros Hr. destruct (IH Hr) as (l & Hin & Hl).
  exists l. split; [by apply list_elem_of_further|done].
Qed.

(** The autonomous mode does not return. *)
Lemma autonomous_mode_done agent interval interrupted (rounds : nat) :
  (run_autonomous_mode agent interval interrupted rounds).2 ≠ Done tt.
Proof.
  assert (Hloop : ∀ asked,
            (autonomous_loop agent interval interrupted asked rounds).2 ≠ Done tt).
  { induction rounds as [|rounds IH]; intros asked; cbn [autonomous_loop]; [done|].
    destruct (agent asked thought) as [chunks raised].
    destruct (print_stream chunks raised) as [out [[]|]]; try done.
    destruct (interrupted (length asked)); [done|].
    specialize (IH (asked ++ [thought])).
    by destruct (autonomous_loop agent interval interrupted (asked ++ [thought]) rounds). }
  unfold run_autonomous_mode. specialize (Hloop []).
  by destruct (autonomous_loop agent interval interrupted [] rounds).
Qed.

(** ** Choosing the mode *)

(** X9: [choose_mode] returns at the first line that, in lower case and
    without surrounding blanks, is 1 or chat (the mode is then "chat") or
    2 or auto (then "auto").  Every line before it gets the menu again and
    the line "Invalid choice. Please try again."; the input after it is
    left unread.  (Lines of ASCII text.) *)
Theorem choose_mode_first_accepted (rejected : list string) (s : string)
    (rest : list key) (mode : string) :
  Forall (λ l, ascii_text l = true) (s :: rejected) →
  Forall (λ l, mode_of l = None) rejected →
  mode_of s = Some mode →
  choose_mode ((Line <$> rejected) ++ Line s :: rest)
  = (mjoin ((λ _, menu ++ [EPrint "Invalid choice. Please try again."])
              <$> rejected) ++ menu,
     (Done mode, rest)).
Proof.
  intros _ Hrej Hs. induction Hrej as [|l rejected Hl _ IH].
  - cbn. unfold mode_of in Hs.
    destruct (bool_decide (strip (lower s) ∈ ["1"; "chat"])).
    { by injection Hs as <-. }
    destruct (bool_decide (strip (lower s) ∈ ["2"; "auto"])); [|done].
    by injection Hs as <-.
  - cbn [fmap list_fmap app choose_mode]. unfold mode_of in Hl.
    destruct (bool_decide (strip (lower l) ∈ ["1"; "chat"])); [done|].
    destruct (bool_decide (strip (lower l) ∈ ["2"; "auto"])); [done|].
    change (list_fmap string key Line rejected) with (Line <$> rejected).
    rewrite IH. cbn [mjoin list_join]. by rewrite <- !app_assoc.
Qed.

Lemma choose_mode_first_accepted_witness :
  choose_mode [Line "3"; Line "chatty"; Line " AUTO "; Line "chat"]
  = (menu ++ [EPrint "Invalid choice. Please try again."] ++
     menu ++ [EPrint "Invalid choice. Please try again."] ++ menu,
     (Done "auto", [Line "chat"])).
Proof.
  refine (eq_trans
            (choose_mode_first_accepted ["3"; "chatty"] " AUTO " [Line "chat"]
               "auto" _ _ eq_refl) _).
  - repeat constructor.
  - repeat constructor.
  - reflexivity.
Defined.

(** X10: when [choose_mode] returns, it returns "chat" or "auto" and
    nothing else.  It does not catch what [input] raises: when every line
    of the input is rejected it ends with [EOFError], having read
    everything, and an interrupt at its prompt, after rejected lines, ends
    it with [KeyboardInterrupt] and leaves the rest unread; either way
    each rejected line got the menu and the line "Invalid choice. Please
    try again.", and the menu was shown once more.  (Lines of ASCII
    text.) *)
Theorem choose_mode_outcomes :
  (∀ stdin : list key,
     match (choose_mode stdin).2.1 with
     | Done mode => mode = "chat" ∨ mode = "auto"
     | Failed e => e = EOFError ∨ e = KeyboardInterrupt
     | Running => False
     end) ∧
  (∀ rejected : list string,
     Forall (λ l, ascii_text l = true ∧ mode_of l = None) rejected →
     choose_mode (Line <$> rejected)
     = (mjoin ((λ _, menu ++ [EPrint "Invalid choice. Please try again."])
                 <$> rejected) ++ menu,
        (Failed EOFError, [])) ∧
     ∀ rest,
       choose_mode ((Line <$> rejected) ++ CtrlC :: rest)
       = (mjoin ((λ _, menu ++ [EPrint "Invalid choice. Please try again."])
                   <$> rejected) ++ menu,
          (Failed KeyboardInterrupt, rest))).
Proof.
  split.
  - intros stdin. induction stdin as [|[s|] stdin IH]; cbn; [by left| |by right].
    destruct (bool_decide (strip (lower s) ∈ ["1"; "chat"])); [by left|].
    destruct (bool_decide (strip (lower s) ∈ ["2"; "auto"])); [by right|].
    by destruct (choose_mode stdin) as [out [r rest]].
  - intros rejected Hrej.
    induction Hrej as [|l rejected [_ Hl] _ [IHeof IHint]]; [by split|].
    unfold mode_of in Hl.
    split; [|intros rest]; cbn [fmap list_fmap app choose_mode];
      destruct (bool_decide (strip (lower l) ∈ ["1"; "chat"])); try done;
      destruct (bool_decide (strip (lower l) ∈ ["2"; "auto"])); try done;
      change (list_fmap string key Line rejected) with (Line <$> rejected).
    + rewrite IHeof. cbn [mjoin list_join]. by rewrite <- !app_assoc.
    + rewrite IHint. cbn [mjoin list_join]. by rewrite <- !app_assoc.
Qed.

Lemma choose_mode_outcomes_witness :
  choose_mode [Line "3"; Line "exit"]
  = (menu ++ [EPrint "Invalid choice. Please try again."] ++
     menu ++ [EPrint "Invalid choice. Please try again."] ++ menu,
     (Failed EOFError, [])) ∧
  choose_mode [Line "3"; Line "exit"; CtrlC; Line "chat"]
  = (menu ++ [EPrint "Invalid choice. Please try again."] ++
     menu ++ [EPrint "Invalid choice. Please try again."] ++ menu,
     (Failed KeyboardInterrupt, [Line "chat"])).
Proof.
  assert (Hrej : Forall (λ l, ascii_text l = true ∧ mode_of l = None)
                   ["3"; "exit"]) by (repeat constructor).
  destruct (proj2 choose_mode_outcomes ["3"; "exit"] Hrej) as [Heof Hint].
  split.
  - exact (eq_trans Heof eq_refl).
  - exact (eq_trans (Hint [Line "chat"]) eq_refl).
Defined.

(** ** The chat mode *)

(** X11: with an executor that behaves, the chat mode streams every prompt
    up to the first line that is "exit" in lower case, in the order they
    were typed; at that line it returns, leaving the rest of the input
    unread.  The line is compared as typed, blanks included. *)
Theorem chat_mode_stops_at_exit agent (prompts : list string) (e : string)
    (rest : list key) :
  well_behaved agent →
  Forall (λ p, ascii_text p = true ∧ lower p ≠ "exit") prompts →
  lower e = "exit" →
  ∃ out,
    run_chat_mode agent ((Line <$> prompts) ++ Line e :: rest)
      = (out, (Done tt, rest)) ∧
    streamed out = prompts.
Proof.
  intros Hagent Hprompts He.
  assert (Hne : Forall (λ p, lower p ≠ "exit") prompts).
  { eapply Forall_impl; [exact Hprompts|]. by intros ? [_ ?]. }
  destruct (chat_loop_prompts agent prompts Hagent Hne [] (Line e :: rest))
    as (out & Hs & Heq).
  unfold run_chat_mode. rewrite Heq. cbn [chat_loop fst snd app].
  rewrite bool_decide_eq_true_2 by done. cbn [fst snd].
  eexists. split; [reflexivity|].
  cbn. rewrite streamed_app, Hs. cbn. by rewrite app_nil_r.
Qed.

Lemma chat_mode_stops_at_exit_witness :
  ∃ out,
    run_chat_mode echo_executor
      [Line "what is my balance?"; Line " exit"; Line "EXIT"; Line "more"]
      = (out, (Done tt, [Line "more"])) ∧
    streamed out = ["what is my balance?"; " exit"].
Proof.
  refine (chat_mode_stops_at_exit echo_executor
            ["what is my balance?"; " exit"] "EXIT" [Line "more"] _ _ eq_refl).
  - intros asked content. reflexivity.
  - repeat constructor; discriminate.
Defined.

(** X12: an interrupt at the prompt of the chat mode, after prompts that
    were served, is answered with the line "Goodbye Agent!" and ends the
    program with exit status 0; the end of the input is not handled and
    ends the chat mode with [EOFError]. *)
Theorem chat_mode_interrupt_and_end_of_input agent (prompts : list string) :
  well_behaved agent →
  Forall (λ p, ascii_text p = true ∧ lower p ≠ "exit") prompts →
  (∀ rest, ∃ out,
     run_chat_mode agent ((Line <$> prompts) ++ CtrlC :: rest)
       = (out ++ [EPrint "Goodbye Agent!"], (Failed (SystemExit 0), rest)) ∧
     streamed out = prompts) ∧
  (∃ out,
     run_chat_mode agent (Line <$> prompts) = (out, (Failed EOFError, [])) ∧
     streamed out = prompts).
Proof.
  intros Hagent Hprompts.
  assert (Hne : Forall (λ p, lower p ≠ "exit") prompts).
  { eapply Forall_impl; [exact Hprompts|]. by intros ? [_ ?]. }
  split.
  - intros rest.
    destruct (chat_loop_prompts agent prompts Hagent Hne [] (CtrlC :: rest))
      as (out & Hs & Heq).
    unfold run_chat_mode. rewrite Heq. cbn [chat_loop fst snd app].
    exists (EPrint "Starting chat mode... Type 'exit' to end."
              :: out ++ [EPrompt (nl +:+ "Prompt: ")]).
    split.
    + cbn [app]. by rewrite <- app_assoc.
    + cbn. rewrite streamed_app, Hs. cbn. by rewrite app_nil_r.
  - destruct (chat_loop_prompts agent prompts Hagent Hne [] [])
      as (out & Hs & Heq).
    rewrite app_nil_r in Heq.
    unfold run_chat_mode. rewrite Heq. cbn [chat_loop fst snd app].
    eexists. split; [reflexivity|].
    cbn. rewrite streamed_app, Hs. cbn. by rewrite app_nil_r.
Qed.

Lemma chat_mode_interrupt_and_end_of_input_witness :
  ∃ out,
    run_chat_mode echo_executor [Line "hello"; CtrlC; Line "exit"]
      = (out ++ [EPrint "Goodbye Agent!"], (Failed (SystemExit 0), [Line "exit"])) ∧
    streamed out = ["hello"].
Proof.
  refine (proj1 (chat_mode_interrupt_and_end_of_input echo_executor ["hello"] _ _)
            [Line "exit"]).
  - intros asked content. reflexivity.
  - repeat constructor; discriminate.
Defined.

(** X13: whatever the executor does and whatever is typed, the chat mode
    never ends with [KeyboardInterrupt] and is never left running: every
    interrupt it sees, at the prompt or raised by the executor while
    streaming, is turned into the exit status. *)
Theorem chat_mode_turns_interrupts_into_exit agent (stdin : list key) :
  (run_chat_mode agent stdin).2.1 ≠ Failed KeyboardInterrupt ∧
  (run_chat_mode agent stdin).2.1 ≠ Running.
Proof.
  assert (Hloop : ∀ asked,
            (chat_loop agent asked stdin).2.1 ≠ Failed KeyboardInterrupt ∧
            (chat_loop agent asked stdin).2.1 ≠ Running).
  { induction stdin as [|[p|] stdin IH]; intros asked; cbn [chat_loop]; [done| |done].
    destruct (bool_decide (lower p = "exit")); [done|].
    destruct (agent asked p) as [chunks raised].
    destruct (print_stream chunks raised) as [out [[]|]]; try done.
    specialize (IH (asked ++ [p])).
    by destruct (chat_loop agent (asked ++ [p]) stdin). }
  unfold run_chat_mode. specialize (Hloop []).
  by destruct (chat_loop agent [] stdin).
Qed.

(** ** The autonomous mode *)

(** X14: the autonomous mode never returns and never ends with
    [KeyboardInterrupt]: however many rounds are observed, it is still
    running or it has ended with another exception, an interrupt having
    become the exit status. *)
Theorem autonomous_mode_never_returns agent interval interrupted (rounds : nat) :
  (run_autonomous_mode agent interval interrupted rounds).2 ≠ Done tt ∧
  (run_autonomous_mode agent interval interrupted rounds).2
    ≠ Failed KeyboardInterrupt.
Proof.
  assert (Hloop : ∀ asked,
            (autonomous_loop agent interval interrupted asked rounds).2 ≠ Done tt ∧
            (autonomous_loop agent interval interrupted asked rounds).2
              ≠ Failed KeyboardInterrupt).
  { induction rounds as [|rounds IH]; intros asked; cbn [autonomous_loop]; [done|].
    destruct (agent asked thought) as [chunks raised].
    destruct (print_stream chunks raised) as [out [[]|]]; try done.
    destruct (interrupted (length asked)); [done|].
    specialize (IH (asked ++ [thought])).
    by destruct (autonomous_loop agent interval interrupted (asked ++ [thought]) rounds). }
  unfold run_autonomous_mode. specialize (Hloop []).
  by destruct (autonomous_loop agent interval interrupted [] rounds).
Qed.

(** X15: with an executor that behaves and no interrupt, every round of
    the autonomous mode streams the same fixed thought and then sleeps the
    interval: after [rounds] rounds the mode is still running, and it has
    streamed the thought and slept exactly [rounds] times. *)
Theorem autonomous_mode_rounds agent interval interrupted (rounds : nat) :
  well_behaved agent →
  (∀ k, interrupted k = false) →
  (run_autonomous_mode agent interval interrupted rounds).2 = Running ∧
  streamed (run_autonomous_mode agent interval interrupted rounds).1
    = replicate rounds thought ∧
  slept (run_autonomous_mode agent interval interrupted rounds).1
    = replicate rounds interval.
Proof.
  intros Hagent Hquiet.
  assert (Hloop : ∀ asked,
            (autonomous_loop agent interval interrupted asked rounds).2 = Running ∧
            streamed (autonomous_loop agent interval interrupted asked rounds).1
              = replicate rounds thought ∧
            slept (autonomous_loop agent interval interrupted asked rounds).1
              = replicate rounds interval).
  { induction rounds as [|rounds IH]; intros asked; cbn [autonomous_loop]; [done|].
    pose proof (Hagent asked thought) as Hnone.
    pose proof (print_stream_streamed (agent asked thought).1
                  (agent asked thought).2) as Hs.
    pose proof (print_stream_slept (agent asked thought).1
                  (agent asked thought).2) as Hz.
    destruct (agent asked thought) as [chunks raised]. cbn [fst snd] in Hnone, Hs, Hz.
    destruct (print_stream chunks raised) as [out r]. cbn [fst snd] in Hnone, Hs, Hz.
    subst r. rewrite Hquiet.
    destruct (IH (asked ++ [thought])) as (Hr & Hst & Hsl).
    destruct (autonomous_loop agent interval interrupted (asked ++ [thought]) rounds)
      as [out' r']. cbn [fst snd] in Hr, Hst, Hsl. subst r'. cbn [fst snd].
    split; [done|]. split.
    - change (streamed (EStream thought :: out ++ ESleep interval :: out'))
        with (thought :: streamed (out ++ ESleep interval :: out')).
      rewrite streamed_app, Hs.
      change (streamed (ESleep interval :: out')) with (streamed out').
      by rewrite Hst.
    - change (slept (EStream thought :: out ++ ESleep interval :: out'))
        with (slept (out ++ ESleep interval :: out')).
      rewrite slept_app, Hz.
      change (slept (ESleep interval :: out')) with (interval :: slept out').
      by rewrite Hsl. }
  unfold run_autonomous_mode. destruct (Hloop []) as (Hr & Hst & Hsl).
  by destruct (autonomous_loop agent interval interrupted [] rounds).
Qed.

Lemma autonomous_mode_rounds_witness :
  (run_autonomous_mode echo_executor 10 (λ _, false) 3).2 = Running ∧
  streamed (run_autonomous_mode echo_executor 10 (λ _, false) 3).1
    = [thought; thought; thought] ∧
  slept (run_autonomous_mode echo_executor 10 (λ _, false) 3).1 = [10; 10; 10].
Proof.
  refine (autonomous_mode_rounds echo_executor 10 (λ _, false) 3 _ _).
  - intros asked content. reflexivity.
  - reflexivity.
Defined.

(** ** Setting the agent up *)

(** X16: the wallet file after [initialize_agent].  When the model, the
    wrapper or the export fails, the file is as it was.  Otherwise it holds
    the wallet exported by the wrapper that was built from the content the
    file had (an empty file counts as a persisted wallet), also when a later
    step fails. *)
Theorem initialize_agent_wallet_file (sdk : Sdk) (file : option string) :
  (initialize_agent sdk file).2
  = match ChatOpenAI sdk "gpt-4o-mini", CdpAgentkitWrapper sdk file with
    | inr _, inr agentkit =>
        match export_wallet sdk agentkit with
        | inr wallet_data => Some wallet_data
        | inl _ => file
        end
    | _, _ => file
    end.
Proof.
  unfold initialize_agent.
  destruct (ChatOpenAI sdk "gpt-4o-mini") as [e|llm]; [done|].
  destruct (CdpAgentkitWrapper sdk file) as [e|agentkit]; [done|].
  destruct (export_wallet sdk agentkit) as [e|wallet_data]; [done|].
  destruct (get_tools sdk agentkit) as [e|tools]; [done|].
  by destruct (create_react_agent sdk llm _ state_modifier).
Qed.

(** X17: when [initialize_agent] succeeds, the agent was created from the
    tools of the toolkit followed by one more tool, named
    "rebalance_liquidity", over the same wrapper; the configuration names
    the one thread of the chatbot. *)
Theorem initialize_agent_appends_the_tool (sdk : Sdk) (file file' : option string)
    (agent : Agent sdk) (config : string) :
  initialize_agent sdk file = (Done (agent, config), file') →
  ∃ llm agentkit tools,
    CdpAgentkitWrapper sdk file = inr agentkit ∧
    get_tools sdk agentkit = inr tools ∧
    create_react_agent sdk llm
      (tools ++ [CdpTool sdk "rebalance_liquidity" REBALANCE_LIQUIDITY_PROMPT
                   agentkit])
      state_modifier = inr agent ∧
    config = "CDP Agentkit Chatbot Example!".
Proof.
  unfold initialize_agent.
  destruct (ChatOpenAI sdk "gpt-4o-mini") as [e|llm]; [done|].
  destruct (CdpAgentkitWrapper sdk file) as [e|agentkit] eqn:Hwrapper; [done|].
  destruct (export_wallet sdk agentkit) as [e|wallet_data]; [done|].
  destruct (get_tools sdk agentkit) as [e|tools] eqn:Htools; [done|].
  destruct (create_react_agent sdk llm _ state_modifier) as [e|agent'] eqn:Hcreate;
    [done|].
  intros [= <- <- _]. by exists llm, agentkit, tools.
Qed.

Lemma initialize_agent_appends_the_tool_witness :
  ∃ llm agentkit tools,
    CdpAgentkitWrapper echo_sdk None = inr agentkit ∧
    get_tools echo_sdk agentkit = inr tools ∧
    create_react_agent echo_sdk llm
      (tools ++ [CdpTool echo_sdk "rebalance_liquidity"
                   REBALANCE_LIQUIDITY_PROMPT agentkit])
      state_modifier = inr tt ∧
    "CDP Agentkit Chatbot Example!" = "CDP Agentkit Chatbot Example!".
Proof.
  exact (initialize_agent_appends_the_tool echo_sdk None (Some "fresh wallet")
           tt "CDP Agentkit Chatbot Example!" eq_refl).
Defined.

(** X18: when the wrapper exports the wallet it was given, starting over
    an existing wallet file leaves the file as it is, whether the rest of
    the set-up succeeds or not. *)
Theorem initialize_agent_keeps_the_wallet (sdk : Sdk) (wallet_data : string) :
  (∀ agentkit,
     CdpAgentkitWrapper sdk (Some wallet_data) = inr agentkit →
     export_wallet sdk agentkit = inr wallet_data) →
  (initialize_agent sdk (Some wallet_data)).2 = Some wallet_data.
Proof.
  intros Hfaithful. rewrite initialize_agent_wallet_file_eq.
  destruct (ChatOpenAI sdk "gpt-4o-mini") as [e|llm]; [done|].
  destruct (CdpAgentkitWrapper sdk (Some wallet_data)) as [e|agentkit] eqn:Hw;
    [done|].
  by rewrite (Hfaithful agentkit).
Qed.

Lemma initialize_agent_keeps_the_wallet_witness :
  (initialize_agent echo_sdk (Some "seed and address")).2
    = Some "seed and address".
Proof.
  apply initialize_agent_keeps_the_wallet. intros agentkit [= <-]. reflexivity.
Defined.

(** ** The whole program *)

(** X20: once the agent is set up and a mode is chosen, [main] enters that
    mode: the opening line of the chat mode follows the menu when the mode
    is "chat", that of the autonomous mode when it is "auto", and a mode
    is never chosen without one of the two being entered. *)
Theorem main_enters_the_chosen_mode (sdk : Sdk) (file file' : option string)
    (stdin rest : list key) (interrupted : nat → bool) (rounds : nat)
    agent config out mode :
  initialize_agent sdk file = (Done (agent, config), file') →
  choose_mode stdin = (out, (Done mode, rest)) →
  ∃ out',
    (main sdk file stdin interrupted rounds).1.1
    = out ++
      EPrint (if bool_decide (mode = "chat")
              then "Starting chat mode... Type 'exit' to end."
              else "Starting autonomous mode...") :: out'.
Proof.
  intros Hinit Hchoose. unfold main. rewrite Hinit, Hchoose.
  pose proof (choose_mode_modes stdin) as Hmodes. rewrite Hchoose in Hmodes.
  cbn in Hmodes. destruct Hmodes as [-> | ->].
  - unfold run_chat_mode.
    destruct (chat_loop (stream sdk agent config) [] rest) as [out' r].
    by exists out'.
  - unfold run_autonomous_mode.
    destruct (autonomous_loop (stream sdk agent config) 10 interrupted [] rounds)
      as [out' r].
    by exists out'.
Qed.

Lemma main_enters_the_chosen_mode_witness :
  ∃ out',
    (main echo_sdk None [Line "2"] (λ _, false) 2).1.1
    = menu ++ EPrint "Starting autonomous mode..." :: out'.
Proof.
  exact (main_enters_the_chosen_mode echo_sdk None (Some "fresh wallet")
           [Line "2"] [] (λ _, false) 2 tt thread_id menu "auto"
           eq_refl eq_refl).
Defined.

(** X21: [main] returns only through the chat mode, at a line of the input
    that is "exit" in lower case: without such a line it ends with an
    exception or, in the autonomous mode, goes on. *)
Theorem main_returns_only_at_exit (sdk : Sdk) (file : option string)
    (stdin : list key) (interrupted : nat → bool) (rounds : nat) :
  (main sdk file stdin interrupted rounds).1.2.1 = Done tt →
  ∃ l, Line l ∈ stdin ∧ lower l = "exit".
Proof.
  unfold main.
  destruct (initialize_agent sdk file) as [[[agent config]|e|] file']; [|done..].
  pose proof (choose_mode_suffix stdin) as Hsuffix.
  pose proof (choose_mode_modes stdin) as Hmodes.
  destruct (choose_mode stdin) as [out [[mode|e|] rest]]; [|done..].
  cbn in Hsuffix, Hmodes.
  destruct Hmodes as [-> | ->].
  - rewrite bool_decide_eq_true_2 by done. unfold run_chat_mode.
    pose proof (chat_loop_done (stream sdk agent config) rest []) as Hdone.
    destruct (chat_loop (stream sdk agent config) [] rest) as [out' [r rest']].
    cbn. intros ->. destruct (Hdone eq_refl) as (l & Hin & Hl).
    exists l. split; [|done].
    destruct Hsuffix as [pre ->]. apply elem_of_app. by right.
  - rewrite bool_decide_eq_false_2 by done.
    rewrite bool_decide_eq_true_2 by done.
    pose proof (autonomous_mode_done (stream sdk agent config) 10 interrupted rounds)
      as Hnever.
    destruct (run_autonomous_mode (stream sdk agent config) 10 interrupted rounds)
      as [out' r].
    cbn in *. done.
Qed.

Lemma main_returns_only_at_exit_witness :
  ∃ l, Line l ∈ [Line "CHAT"; Line "hello"; Line "Exit"] ∧ lower l = "exit".
Proof.
  exact (main_returns_only_at_exit echo_sdk None
           [Line "CHAT"; Line "hello"; Line "Exit"] (λ _, false) 0 eq_refl).
Defined.
